(** * Fall-detection pipeline: suspect filter, fall confirmation,
      orchestrator, degraded detector and stream registry.

    Shallow embedding of
      backend/services/fall_detection/pipeline.py
      backend/services/fall_detection/yolo_service.py
      backend/services/fall_detection/pose_service.py
      backend/services/fall_detection/video_stream_service.py

    Numbers.  Pixel coordinates are Python ints and are kept as [Z].
    Python's true division [/] and the float literals of the source are
    read as exact rationals ([Qc], canonical fractions, so that equality is
    Leibniz equality); rounding of IEEE doubles is not modelled.

    Exceptions.  Every Python operation that can raise ([d[k]], [l[i]],
    [a / b], arithmetic on non-numbers, [del d[k]]) is a function into
    [result], so that "does not raise" is a statement about the model and
    not a consequence of its types. *)

From Stdlib Require Import QArith Qcanon Qcabs Lqa.
From stdpp Require Import base numbers option list strings gmap fin_maps.

Open Scope Z_scope.

(** ** Python values and exceptions *)

Inductive exn : Type :=
  | KeyError (k : string)
  | IndexError
  | TypeError
  | ZeroDivisionError.

Inductive result (A : Type) : Type :=
  | Ok (a : A)
  | Raise (e : exn).
Arguments Ok {A} a.
Arguments Raise {A} e.

Definition result_bind {A B} (m : result A) (k : A → result B) : result B :=
  match m with
  | Ok a => k a
  | Raise e => Raise e
  end.

#[global] Instance result_ret : MRet result := λ A a, Ok a.
#[global] Instance result_mbind : MBind result := λ A B k m, result_bind m k.

Definition returns {A} (m : result A) : Prop :=
  match m with Ok _ => True | Raise _ => False end.

(** The values a pose mapping can hold: numbers, strings, lists, [None]. *)
#[warnings="-register-all"]
Inductive pyval : Type :=
  | VNone
  | VNum (q : Qc)
  | VStr (s : string)
  | VList (l : list pyval).

(** [a / b] on numbers. *)
Definition py_truediv (a b : Qc) : result Qc :=
  if bool_decide (b = 0%Qc) then Raise ZeroDivisionError else Ok (a / b)%Qc.

(** [d[k]] on a dict. *)
Definition py_getitem {V} (d : gmap string V) (k : string) : result V :=
  match d !! k with
  | Some v => Ok v
  | None => Raise (KeyError k)
  end.

(** [del d[k]] on a dict. *)
Definition py_delitem {V} (d : gmap string V) (k : string)
  : result (gmap string V) :=
  match d !! k with
  | Some _ => Ok (delete k d)
  | None => Raise (KeyError k)
  end.

(** [s[i]] on a string, for a non-negative [i]: a one-character string. *)
Definition str_index (s : string) (i : nat) : result pyval :=
  match String.get i s with
  | Some c => Ok (VStr (String c EmptyString))
  | None => Raise IndexError
  end.

(** [v[i]] for a non-negative literal index [i]. *)
Definition py_index (v : pyval) (i : nat) : result pyval :=
  match v with
  | VList l =>
      match l !! i with
      | Some x => Ok x
      | None => Raise IndexError
      end
  | VStr s => str_index s i
  | VNone | VNum _ => Raise TypeError
  end.

(** [a + b]: numbers add, strings and lists concatenate. *)
Definition py_add (a b : pyval) : result pyval :=
  match a, b with
  | VNum x, VNum y => Ok (VNum (x + y)%Qc)
  | VStr x, VStr y => Ok (VStr (x +:+ y))
  | VList x, VList y => Ok (VList (x ++ y))
  | _, _ => Raise TypeError
  end.

(** [a - b]. *)
Definition py_sub (a b : pyval) : result pyval :=
  match a, b with
  | VNum x, VNum y => Ok (VNum (x - y)%Qc)
  | _, _ => Raise TypeError
  end.

(** [a / n] for a numeric literal [n]: a float when [a] is a number. *)
Definition py_div_lit (a : pyval) (n : Qc) : result Qc :=
  match a with
  | VNum x => py_truediv x n
  | _ => Raise TypeError
  end.

(** [abs(a)]. *)
Definition py_abs (a : pyval) : result pyval :=
  match a with
  | VNum x => Ok (VNum (Qcabs x))
  | _ => Raise TypeError
  end.

(** [a < n] for a numeric literal [n]. *)
Definition py_lt_lit (a : pyval) (n : Qc) : result bool :=
  match a with
  | VNum x => Ok (bool_decide (x < n)%Qc)
  | _ => Raise TypeError
  end.

(** [v == s] for a string literal [s]: no exception, [False] across types. *)
Definition py_eq_str (v : option pyval) (s : string) : bool :=
  match v with
  | Some (VStr t) => bool_decide (t = s)
  | _ => false
  end.

(** Truth value of a dict-or-[None]: [None] and the empty dict are falsy. *)
Definition py_truthy {V} (d : option (gmap string V)) : bool :=
  match d with
  | None => false
  | Some m => negb (bool_decide (size m = 0%nat))
  end.

(** [d.get(k)] on a truthy [d]: the value, or [None] for a missing key. *)
Definition py_get {V} (d : option (gmap string V)) (k : string) : option V :=
  match d with
  | None => None
  | Some m => m !! k
  end.

(** [d[k]] where [d] may be [None]. *)
Definition py_getitem_opt {V} (d : option (gmap string V)) (k : string)
  : result V :=
  match d with
  | None => Raise TypeError
  | Some m => py_getitem m k
  end.

(** ** Data model *)

(** [bbox = [x1, y1, x2, y2]]. *)
Definition BBox : Type := Z * Z * Z * Z.

(** One element of [detect_persons]' output. *)
Record Person : Type := mkPerson {
  bbox : BBox;
  confidence : Qc;
  class : string
}.

(** A frame: its [shape[:2]] and its raster. *)
Record Frame : Type := mkFrame {
  img_h : Z;
  img_w : Z;
  pixels : list Z
}.

(** ** pipeline.py: the suspect filter *)

Definition frame_area : Z := 640 * 480.

Definition box_percentage (b : BBox) : result Qc :=
  let '(x1, y1, x2, y2) := b in
  let width := x2 - x1 in
  let height := y2 - y1 in
  let box_area := width * height in
  r ← py_truediv (Qc_of_Z box_area) (Qc_of_Z frame_area);
  Ok (r * Qc_of_Z 100)%Qc.

Definition _is_suspect (b : BBox) : result bool :=
  let '(x1, y1, x2, y2) := b in
  let width := x2 - x1 in
  let height := y2 - y1 in
  if bool_decide (height = 0) then Ok false else
  aspect_ratio ← py_truediv (Qc_of_Z width) (Qc_of_Z height);
  center_y ← py_truediv (Qc_of_Z (y1 + y2)) (Qc_of_Z 2);
  box_percentage ← box_percentage b;
  if bool_decide (Qc_of_Z 50 < box_percentage)%Qc && bool_decide (250 < height)
  then Ok false else
  if bool_decide (Q2Qc (3 # 2) < aspect_ratio)%Qc
  then Ok true else
  if bool_decide (Qc_of_Z 300 < center_y)%Qc
     && bool_decide (Q2Qc (3 # 5) < aspect_ratio)%Qc
     && bool_decide (aspect_ratio < Q2Qc (7 # 5))%Qc
     && bool_decide (380 < y2)
  then Ok true else
  if bool_decide (height < 180) && bool_decide (360 < y2)
  then Ok true else
  Ok false.

(** ** The decision rules as the design document words them

    A rule is a condition with a verdict; the rules are tried in order and
    the first one whose condition holds decides. *)

Definition first_match (rules : list (bool * bool)) (otherwise : bool) : bool :=
  match List.find fst rules with
  | Some r => snd r
  | None => otherwise
  end.

Section rules.
Context (b : BBox) (frame_width frame_height : Z).

Definition bb_width : Z := let '(x1, y1, x2, y2) := b in x2 - x1.
Definition bb_height : Z := let '(x1, y1, x2, y2) := b in y2 - y1.
Definition bb_bottom : Z := let '(x1, y1, x2, y2) := b in y2.
Definition bb_aspect_ratio : Qc := (Qc_of_Z bb_width / Qc_of_Z bb_height)%Qc.
Definition bb_center_y : Qc :=
  let '(x1, y1, x2, y2) := b in (Qc_of_Z (y1 + y2) / Qc_of_Z 2)%Qc.
Definition bb_percentage : Qc :=
  (Qc_of_Z (bb_width * bb_height)
     / Qc_of_Z (frame_width * frame_height) * Qc_of_Z 100)%Qc.

Definition rule1 : bool :=
  bool_decide (Qc_of_Z 50 < bb_percentage)%Qc && bool_decide (250 < bb_height).
Definition rule2 : bool :=
  bool_decide (Q2Qc (3 # 2) < bb_aspect_ratio)%Qc.
Definition rule3 : bool :=
  bool_decide (Qc_of_Z 300 < bb_center_y)%Qc
  && (bool_decide (Q2Qc (3 # 5) < bb_aspect_ratio)%Qc
      && bool_decide (bb_aspect_ratio < Q2Qc (7 # 5))%Qc)
  && bool_decide (380 < bb_bottom).
Definition rule4 : bool :=
  bool_decide (bb_height < 180) && bool_decide (360 < bb_bottom).

Definition rules_is_suspect : bool :=
  first_match
    [ (rule1, false); (rule2, true); (rule3, true); (rule4, true) ]
    false.
End rules.

(** ** pipeline.py: fall confirmation *)

Definition _confirm_fall (pose_data : option (gmap string pyval)) : result bool :=
  if negb (py_truthy pose_data) then Ok false else
  if py_eq_str (py_get pose_data "orientation") "horizontal" then Ok true else
  nose ← py_getitem_opt pose_data "nose";
  nose_y ← py_index nose 1;
  left_hip ← py_getitem_opt pose_data "left_hip";
  left_hip_y ← py_index left_hip 1;
  right_hip ← py_getitem_opt pose_data "right_hip";
  right_hip_y ← py_index right_hip 1;
  hips ← py_add left_hip_y right_hip_y;
  hip_y ← py_div_lit hips (Qc_of_Z 2);
  diff ← py_sub nose_y (VNum hip_y);
  dist ← py_abs diff;
  close ← py_lt_lit dist (Qc_of_Z 20);
  if close : bool then Ok true else Ok false.

(** ** pipeline.py: the orchestrator *)

Record DetectionInfo : Type := mkDetectionInfo {
  di_bbox : BBox;
  di_is_suspect : bool;
  di_pose : option (gmap string pyval)
}.

Record FallEventDetails : Type := mkFallEventDetails {
  ev_confidence : Qc;
  ev_bbox : BBox;
  ev_pose : option (gmap string pyval)
}.

Record FrameResult : Type := mkFrameResult {
  camera_id : string;
  timestamp : Qc;
  detections : list DetectionInfo;
  fall_detected : bool;
  event_details : option FallEventDetails
}.

(** Computations of the pipeline: they read and change the state [W] of the
    services they call, and return or raise.  The state change made before a
    raise is kept. *)
Definition M (W A : Type) : Type := W → result A * W.

Definition M_ret {W A} (a : A) : M W A := λ w, (Ok a, w).

Definition M_bind {W A B} (m : M W A) (k : A → M W B) : M W B :=
  λ w, match m w with
       | (Ok a, w') => k a w'
       | (Raise e, w') => (Raise e, w')
       end.

(** A pure step that may raise. *)
Definition try_ {W A} (r : result A) : M W A := λ w, (r, w).

(** A call of a service that does not raise. *)
Definition call {W A} (f : W → A * W) : M W A :=
  λ w, let '(a, w') := f w in (Ok a, w').

Notation "'let!' x := m 'in' k" := (M_bind m (λ x, k))
  (at level 10, x name, m at level 100, k at level 200, only parsing).

(** The two services the pipeline imports, and the clock. *)
Class Services (W : Type) : Type := {
  yolo_detect_persons : option Frame → W → list Person * W;
  pose_estimate_pose : option Frame → BBox → W → option (gmap string pyval) * W;
  time_time : W → Qc * W
}.

Section pipeline.
Context {W : Type} `{Services W}.

(** The event a confirmed fall writes:
    [(confidence + pose_data['confidence']) / 2]. *)
Definition make_event (person : Person) (pose_data : option (gmap string pyval))
  : result FallEventDetails :=
  pose_confidence ← py_getitem_opt pose_data "confidence";
  total ← py_add (VNum (confidence person)) pose_confidence;
  mean ← py_div_lit total (Qc_of_Z 2);
  Ok {| ev_confidence := mean; ev_bbox := bbox person; ev_pose := pose_data |}.

Definition append_detection (results : FrameResult) (d : DetectionInfo)
  : FrameResult :=
  {| camera_id := camera_id results;
     timestamp := timestamp results;
     detections := detections results ++ [d];
     fall_detected := fall_detected results;
     event_details := event_details results |}.

Definition set_event (results : FrameResult) (e : FallEventDetails)
  : FrameResult :=
  {| camera_id := camera_id results;
     timestamp := timestamp results;
     detections := detections results;
     fall_detected := true;
     event_details := Some e |}.

(** One iteration of [for person in persons]. *)
Definition process_person (frame : option Frame) (results : FrameResult)
    (person : Person) : M W FrameResult :=
  let! is_suspect := try_ (_is_suspect (bbox person)) in
  if is_suspect : bool then
    let! pose_data := call (pose_estimate_pose frame (bbox person)) in
    let! confirmed := try_ (_confirm_fall pose_data) in
    let! results' :=
      (if confirmed : bool
       then let! e := try_ (make_event person pose_data) in
            M_ret (set_event results e)
       else M_ret results) in
    M_ret (append_detection results'
             (mkDetectionInfo (bbox person) true pose_data))
  else
    M_ret (append_detection results
             (mkDetectionInfo (bbox person) false None)).

Fixpoint for_persons (frame : option Frame) (persons : list Person)
    (results : FrameResult) : M W FrameResult :=
  match persons with
  | [] => M_ret results
  | person :: rest =>
      let! results' := process_person frame results person in
      for_persons frame rest results'
  end.

Definition process_frame (cam : string) (frame : option Frame)
  : M W FrameResult :=
  let! now := call time_time in
  let! persons := call (yolo_detect_persons frame) in
  for_persons frame persons
    {| camera_id := cam; timestamp := now; detections := [];
       fall_detected := false; event_details := None |}.
End pipeline.

(** ** The services as the repository implements them

    Everything outside the Python code is an oracle held in the state:
    [random.random()] reads the next cell of a tape, the network loaded by
    OpenCV is a function from frames to the detection list the
    post-processing would build ([None] when inference raises), and
    [time.time()] reads a clock.  [pose_calls] counts the calls of
    [estimate_pose]; the source has no such counter, it is kept to state
    how often the pose step ran. *)

Record World : Type := mkWorld {
  model_loaded : bool;
  dnn_detect : Frame → option (list Person);
  random_tape : nat → Qc;
  random_pos : nat;
  clock : Qc;
  pose_calls : nat
}.

Definition random_random (w : World) : Qc * World :=
  (random_tape w (random_pos w),
   {| model_loaded := model_loaded w; dnn_detect := dnn_detect w;
      random_tape := random_tape w; random_pos := S (random_pos w);
      clock := clock w; pose_calls := pose_calls w |}).

Definition count_pose_call (w : World) : World :=
  {| model_loaded := model_loaded w; dnn_detect := dnn_detect w;
     random_tape := random_tape w; random_pos := random_pos w;
     clock := clock w; pose_calls := S (pose_calls w) |}.

Module YoloService.

Definition mock_bbox : BBox := (100, 100, 200, 300).

Definition _mock_detection (w : World) : list Person * World :=
  let '(r, w1) := random_random w in
  if bool_decide (Q2Qc (3 # 10) < r)%Qc then
    let '(r', w2) := random_random w1 in
    ([ {| bbox := mock_bbox;
          confidence := (Q2Qc (85 # 100) + r' * Q2Qc (14 # 100))%Qc;
          class := "person" |} ], w2)
  else ([], w1).

Definition detect_persons (frame : option Frame) (w : World)
  : list Person * World :=
  match frame with
  | None => _mock_detection w
  | Some f =>
      if negb (model_loaded w) then _mock_detection w
      else match dnn_detect w f with
           | Some detections => (detections, w)
           | None => _mock_detection w
           end
  end.

(** The calls that take the mock path. *)
Definition degraded (frame : option Frame) (w : World) : Prop :=
  match frame with
  | None => True
  | Some f => model_loaded w = false ∨ dnn_detect w f = None
  end.

End YoloService.

Module PoseService.

Definition point (x y : Z) : pyval := VList [VNum (Qc_of_Z x); VNum (Qc_of_Z y)].

Definition fallen_pose : gmap string pyval :=
  list_to_map
    [ ("nose", point 150 280);
      ("left_shoulder", point 140 280);
      ("right_shoulder", point 160 280);
      ("left_hip", point 140 285);
      ("right_hip", point 160 285);
      ("left_ankle", point 140 290);
      ("right_ankle", point 160 290);
      ("orientation", VStr "horizontal");
      ("confidence", VNum (Q2Qc (9 # 10))) ].

Definition standing_pose : gmap string pyval :=
  list_to_map
    [ ("nose", point 150 120);
      ("left_shoulder", point 140 140);
      ("right_shoulder", point 160 140);
      ("left_hip", point 145 200);
      ("right_hip", point 155 200);
      ("left_ankle", point 145 280);
      ("right_ankle", point 155 280);
      ("orientation", VStr "vertical");
      ("confidence", VNum (Q2Qc (95 # 100))) ].

Definition estimate_pose (frame : option Frame) (b : BBox) (w : World)
  : option (gmap string pyval) * World :=
  let '(r, w1) := random_random (count_pose_call w) in
  let is_fallen := bool_decide (Q2Qc (8 # 10) < r)%Qc in
  if is_fallen then (Some fallen_pose, w1) else (Some standing_pose, w1).

End PoseService.

#[global] Instance repo_services : Services World := {|
  yolo_detect_persons := YoloService.detect_persons;
  pose_estimate_pose := PoseService.estimate_pose;
  time_time := λ w, (clock w, w)
|}.

(** [fall_pipeline.process_frame]. *)
Definition fall_pipeline_process_frame (cam : string) (frame : option Frame)
  : M World FrameResult :=
  process_frame cam frame.

(** ** video_stream_service.py: the stream registry

    A capture object is a number handed out by [cv2.VideoCapture];
    [released] lists the handles [release()] was called on, latest first.
    The camera is an oracle: [camera_opens url] is [None] when opening
    raises and [Some b] when it gives a capture with [isOpened() = b];
    [read()] takes the next cell of [read_tape], [None] standing for a
    failed read.  [cv2_render] stands for the drawing calls: it receives
    the frame and, per detection, the box and whether it is drawn red. *)

Inductive Lock : Type := threading_Lock.

Record VideoWorld : Type := mkVideoWorld {
  pipeline_world : World;
  active_streams : gmap string nat;
  stream_locks : gmap string Lock;
  next_capture : nat;
  released : list nat;
  camera_opens : string → option bool;
  read_tape : nat → option Frame;
  read_pos : nat;
  cv2_render : Frame → list (BBox * bool) → Frame
}.

Section setters.
Context (v : VideoWorld).

Definition set_pipeline_world (w : World) : VideoWorld :=
  {| pipeline_world := w; active_streams := active_streams v;
     stream_locks := stream_locks v; next_capture := next_capture v;
     released := released v; camera_opens := camera_opens v;
     read_tape := read_tape v; read_pos := read_pos v;
     cv2_render := cv2_render v |}.

Definition set_active_streams (m : gmap string nat) : VideoWorld :=
  {| pipeline_world := pipeline_world v; active_streams := m;
     stream_locks := stream_locks v; next_capture := next_capture v;
     released := released v; camera_opens := camera_opens v;
     read_tape := read_tape v; read_pos := read_pos v;
     cv2_render := cv2_render v |}.

Definition set_stream_locks (m : gmap string Lock) : VideoWorld :=
  {| pipeline_world := pipeline_world v; active_streams := active_streams v;
     stream_locks := m; next_capture := next_capture v;
     released := released v; camera_opens := camera_opens v;
     read_tape := read_tape v; read_pos := read_pos v;
     cv2_render := cv2_render v |}.

Definition set_next_capture (n : nat) : VideoWorld :=
  {| pipeline_world := pipeline_world v; active_streams := active_streams v;
     stream_locks := stream_locks v; next_capture := n;
     released := released v; camera_opens := camera_opens v;
     read_tape := read_tape v; read_pos := read_pos v;
     cv2_render := cv2_render v |}.

Definition set_released (l : list nat) : VideoWorld :=
  {| pipeline_world := pipeline_world v; active_streams := active_streams v;
     stream_locks := stream_locks v; next_capture := next_capture v;
     released := l; camera_opens := camera_opens v;
     read_tape := read_tape v; read_pos := read_pos v;
     cv2_render := cv2_render v |}.

Definition set_read_pos (n : nat) : VideoWorld :=
  {| pipeline_world := pipeline_world v; active_streams := active_streams v;
     stream_locks := stream_locks v; next_capture := next_capture v;
     released := released v; camera_opens := camera_opens v;
     read_tape := read_tape v; read_pos := n;
     cv2_render := cv2_render v |}.
End setters.

Module VideoStreamService.

(** [cap.release()]. *)
Definition cap_release (cap : nat) (v : VideoWorld) : VideoWorld :=
  set_released v (cap :: released v).

(** [cap.read()]: [None] when [ret] is false or the frame is [None]. *)
Definition cap_read (cap : nat) (v : VideoWorld) : option Frame * VideoWorld :=
  (read_tape v (read_pos v), set_read_pos v (S (read_pos v))).

Definition get_stream (camera_url : string) (v : VideoWorld)
  : option nat * VideoWorld :=
  match active_streams v !! camera_url with
  | Some cap => (Some cap, v)
  | None =>
      match camera_opens v camera_url with
      | None => (None, v)
      | Some opened =>
          let cap := next_capture v in
          let v1 := set_next_capture v (S cap) in
          if negb opened then (None, v1) else
          let '(test_frame, v2) := cap_read cap v1 in
          match test_frame with
          | None => (None, cap_release cap v2)
          | Some _ =>
              let v3 := set_active_streams v2
                          (<[camera_url := cap]> (active_streams v2)) in
              let v4 := set_stream_locks v3
                          (<[camera_url := threading_Lock]> (stream_locks v3)) in
              (active_streams v4 !! camera_url, v4)
          end
      end
  end.

(** The overlays of one frame: red when the detection is a suspect or the
    frame holds a fall. *)
Definition overlays (fall_result : FrameResult) : list (BBox * bool) :=
  map (λ detection,
         (di_bbox detection,
          di_is_suspect detection || fall_detected fall_result))
      (detections fall_result).

Definition read_frame (camera_url : string) (with_detections : bool)
    (v : VideoWorld) : option Frame * VideoWorld :=
  let '(stream, v1) := get_stream camera_url v in
  match stream with
  | None => (None, v1)
  | Some cap =>
      match stream_locks v1 !! camera_url with
      | None => (None, v1)
      | Some lock =>
          let after_read (frame : Frame) (v' : VideoWorld) :=
            if with_detections then
              match fall_pipeline_process_frame camera_url (Some frame)
                      (pipeline_world v') with
              | (Ok fall_result, w) =>
                  (Some (cv2_render v' frame (overlays fall_result)),
                   set_pipeline_world v' w)
              | (Raise _, w) => (None, set_pipeline_world v' w)
              end
            else (Some frame, v') in
          let '(r, v2) := cap_read cap v1 in
          match r with
          | Some frame => after_read frame v2
          | None =>
              let '(r', v3) := cap_read cap v2 in
              match r' with
              | Some frame => after_read frame v3
              | None =>
                  let v4 := cap_release cap v3 in
                  let v5 :=
                    match active_streams v4 !! camera_url with
                    | Some _ =>
                        set_active_streams v4
                          (delete camera_url (active_streams v4))
                    | None => v4
                    end in
                  (None, v5)
              end
          end
      end
  end.

Definition release_stream (camera_url : string) : M VideoWorld unit :=
  λ v,
  match active_streams v !! camera_url with
  | None => (Ok tt, v)
  | Some _ =>
      match py_getitem (active_streams v) camera_url with
      | Raise e => (Raise e, v)
      | Ok cap =>
          let v1 := cap_release cap v in
          match py_delitem (active_streams v1) camera_url with
          | Raise e => (Raise e, v1)
          | Ok m =>
              let v2 := set_active_streams v1 m in
              match stream_locks v2 !! camera_url with
              | None => (Ok tt, v2)
              | Some _ =>
                  match py_delitem (stream_locks v2) camera_url with
                  | Raise e => (Raise e, v2)
                  | Ok l => (Ok tt, set_stream_locks v2 l)
                  end
              end
          end
      end
  end.

End VideoStreamService.

(** ** Vocabulary of the statements *)

(** The y coordinate [d[k][1]] of a keypoint, when [d[k]] is a sequence
    whose element at index 1 is a number. *)
Definition keypoint_y (d : gmap string pyval) (k : string) : option Qc :=
  match d !! k with
  | Some (VList l) =>
      match l !! 1%nat with
      | Some (VNum y) => Some y
      | _ => None
      end
  | _ => None
  end.

Definition horizontal (d : gmap string pyval) : bool :=
  py_eq_str (d !! "orientation") "horizontal".

(** [d[k][1]], as [_confirm_fall] reads a keypoint. *)
Definition read_y (d : gmap string pyval) (k : string) : result pyval :=
  v ← py_getitem d k; py_index v 1.

(** What [_confirm_fall] does with the three values it has read. *)
Definition head_hip_check (nose_y left_hip_y right_hip_y : pyval) : result bool :=
  hips ← py_add left_hip_y right_hip_y;
  hip_y ← py_div_lit hips (Qc_of_Z 2);
  diff ← py_sub nose_y (VNum hip_y);
  dist ← py_abs diff;
  close ← py_lt_lit dist (Qc_of_Z 20);
  if close : bool then Ok true else Ok false.

(** The three keypoints [_confirm_fall] needs are there, each with a number
    at index 1. *)
Definition has_keypoints (d : gmap string pyval) : Prop :=
  is_Some (keypoint_y d "nose")
  ∧ is_Some (keypoint_y d "left_hip")
  ∧ is_Some (keypoint_y d "right_hip").

(** The event the loop writes for person [p] when its record [d] is a
    suspect whose pose confirms a fall. *)
Definition confirmed_event (p : Person) (d : DetectionInfo)
  : option FallEventDetails :=
  if di_is_suspect d then
    match _confirm_fall (di_pose d) with
    | Ok true =>
        match make_event p (di_pose d) with
        | Ok e => Some e
        | Raise _ => None
        end
    | _ => None
    end
  else None.

(** The events of the confirmed falls of one frame, in detector order. *)
Definition confirmed_events (persons : list Person) (ds : list DetectionInfo)
  : list FallEventDetails :=
  omap (λ pd, confirmed_event pd.1 pd.2) (zip persons ds).

(** The record [d] is the one the loop appends for person [p]. *)
Definition records (p : Person) (d : DetectionInfo) : Prop :=
  di_bbox d = bbox p
  ∧ _is_suspect (bbox p) = Ok (di_is_suspect d)
  ∧ (di_is_suspect d = false → di_pose d = None).

(** The detector output a run of [process_frame] iterates over. *)
Definition persons_of {W} `{Services W} (frame : option Frame) (w : W)
  : list Person :=
  (yolo_detect_persons frame (time_time w).2).1.

(** Worlds and frames for the examples. *)
Definition const_tape (q : Qc) : nat → Qc := λ _, q.

Definition example_world (loaded : bool) (output : option (list Person))
    (tape : nat → Qc) : World :=
  {| model_loaded := loaded; dnn_detect := λ _, output;
     random_tape := tape; random_pos := 0; clock := 0%Qc; pose_calls := 0 |}.

Definition frame_640x480 : Frame := {| img_h := 480; img_w := 640; pixels := [] |}.
Definition frame_1280x960 : Frame := {| img_h := 960; img_w := 1280; pixels := [] |}.

Definition lying_far : Person :=
  {| bbox := (100, 200, 400, 260); confidence := Q2Qc (9 # 10); class := "person" |}.
Definition lying_near : Person :=
  {| bbox := (140, 280, 160, 290); confidence := Q2Qc (85 # 100); class := "person" |}.
Definition wide_close : Person :=
  {| bbox := (0, 100, 600, 400); confidence := Q2Qc (9 # 10); class := "person" |}.

Definition two_falls_world : World :=
  example_world true (Some [lying_far; lying_near]) (const_tape (Q2Qc (9 # 10))).

Definition one_fall_world : World :=
  example_world true (Some [lying_near]) (const_tape (Q2Qc (9 # 10))).

Definition wide_close_world : World :=
  example_world true (Some [wide_close]) (const_tape 0%Qc).

(** The reading of the design document in which the first confirmed fall of
    a frame keeps the event. *)
Definition first_fall_wins : Prop :=
  ∀ cam frame (w : World) r w',
    process_frame cam frame w = (Ok r, w') →
    event_details r
    = head (confirmed_events (persons_of frame w) (detections r)).

(** The reading of the design document in which the filter is given the
    size of the frame it works on. *)
Definition filter_follows_frame_size : Prop :=
  ∀ cam (f : Frame) (w : World) r w',
    process_frame cam (Some f) w = (Ok r, w') →
    ∀ d, d ∈ detections r → bb_height (di_bbox d) ≠ 0 →
         di_is_suspect d = rules_is_suspect (di_bbox d) (img_w f) (img_h f).

(** The frame a run has returned; the start value of the loop stands in
    when the run raised. *)
Definition returned (run : result FrameResult * World) : FrameResult :=
  match run.1 with
  | Ok r => r
  | Raise _ =>
      {| camera_id := EmptyString; timestamp := 0%Qc; detections := [];
         fall_detected := false; event_details := None |}
  end.

Definition two_falls_run : result FrameResult * World :=
  process_frame "cam" (Some frame_640x480) two_falls_world.

Definition one_fall_run : result FrameResult * World :=
  process_frame "cam" (Some frame_640x480) one_fall_world.

Definition wide_close_run : result FrameResult * World :=
  process_frame "cam" (Some frame_1280x960) wide_close_world.

(** [random.random()] draws from [0, 1). *)
Definition unit_tape (w : World) : Prop :=
  ∀ n, (0 ≤ random_tape w n)%Qc ∧ (random_tape w n < 1)%Qc.

(** The reading of the design document in which two calls on the mock path
    with the same frame give the same value. *)
Definition degraded_deterministic : Prop :=
  ∀ frame (w : World),
    YoloService.degraded frame w →
    let '(first, w1) := YoloService.detect_persons frame w in
    let '(second, _) := YoloService.detect_persons frame w1 in
    first = second.

(** The reading of the design document in which a caller can tell the value
    of the mock path from the value of an inference. *)
Definition degraded_distinguishable : Prop :=
  ∀ (f : Frame) (w : World) frame' (w' : World),
    ¬ YoloService.degraded (Some f) w →
    YoloService.degraded frame' w' →
    (YoloService.detect_persons (Some f) w).1
    ≠ (YoloService.detect_persons frame' w').1.

Definition flaky_tape : nat → Qc :=
  λ n, if (n =? 2)%nat then Q2Qc (1 # 10) else Q2Qc (1 # 2).

Definition mock_world : World := example_world false None flaky_tape.

Definition upright : Person :=
  {| bbox := YoloService.mock_bbox; confidence := Q2Qc (23 # 25);
     class := "person" |}.

Definition inference_world : World :=
  example_world true (Some [upright]) (const_tape (Q2Qc (1 # 2))).

(** [read_frame] takes its failure path: the stream is there with its lock
    and the read and its retry both fail. *)
Definition read_fails_twice (camera_url : string) (v : VideoWorld) (cap : nat)
  : Prop :=
  let '(stream, v1) := VideoStreamService.get_stream camera_url v in
  stream = Some cap
  ∧ is_Some (stream_locks v1 !! camera_url)
  ∧ read_tape v1 (read_pos v1) = None
  ∧ read_tape v1 (S (read_pos v1)) = None.

Definition dead_camera : VideoWorld :=
  {| pipeline_world := mock_world;
     active_streams := {[ "0" := 7%nat ]};
     stream_locks := {[ "0" := threading_Lock ]};
     next_capture := 8;
     released := [];
     camera_opens := λ _, Some true;
     read_tape := λ _, None;
     read_pos := 0;
     cv2_render := λ frame _, frame |}.

(** ** The filter's conditions in integer arithmetic

    The comparisons of the filter with the divisions cleared: what it
    decides written on the integer coordinates alone. *)

Definition int_rule1 (b : BBox) : bool :=
  bool_decide (640 * 480 < 2 * (bb_width b * bb_height b))
  && bool_decide (250 < bb_height b).

Definition int_rule2 (b : BBox) : bool :=
  bool_decide (3 * bb_height b < 2 * bb_width b).

Definition int_rule3 (b : BBox) : bool :=
  let '(x1, y1, x2, y2) := b in
  bool_decide (600 < y1 + y2)
  && (bool_decide (3 * bb_height b < 5 * bb_width b)
      && bool_decide (5 * bb_width b < 7 * bb_height b))
  && bool_decide (380 < y2).

Definition int_is_suspect (b : BBox) : bool :=
  if int_rule1 b then false
  else if int_rule2 b then true
  else if int_rule3 b then true
  else rule4 b.

(** The keys [_confirm_fall] looks up. *)
Definition confirm_keys : list string :=
  ["orientation"; "nose"; "left_hip"; "right_hip"].

(** The number of suspects among the records of a frame. *)
Definition suspect_count (ds : list DetectionInfo) : nat :=
  length (filter (λ d, di_is_suspect d = true) ds).

(** The pose of a record when the pose service is the repository's: one
    of its two poses for a suspect, none otherwise. *)
Definition repo_pose (d : DetectionInfo) : Prop :=
  if di_is_suspect d
  then di_pose d = Some PoseService.fallen_pose
       ∨ di_pose d = Some PoseService.standing_pose
  else di_pose d = None.

(** A detector and a pose service that answer every call with the same
    value and keep no state, for the examples. *)
Definition scripted_services (persons : list Person)
    (pose : option (gmap string pyval)) : Services unit :=
  {| yolo_detect_persons := λ _ w, (persons, w);
     pose_estimate_pose := λ _ _ w, (pose, w);
     time_time := λ w, (0%Qc, w) |}.

Definition bare_pose : gmap string pyval :=
  {[ "orientation" := VStr "horizontal" ]}.

(** ** routes/fall_detection.py: [infer_frame]

    The table of fall events is the list of the rows added so far; [id],
    [timestamp] and [snapshot_path] of a row, which the database fills in,
    are left out, and [fe_metadata] holds the event whose [str()] the code
    stores.  The JSON answers are the two shapes the handler builds. *)

Record FallEvent : Type := mkFallEvent {
  fe_camera_id : string;
  fe_confidence : Qc;
  fe_severity : string;
  fe_status : string;
  fe_metadata : FallEventDetails
}.

Inductive InferResponse : Type :=
  | FallReported (event : FallEvent)
  | NoFall (detections : list DetectionInfo).

Record AppState : Type := mkAppState {
  app_world : World;
  fall_events : list FallEvent
}.

Definition infer_frame (camera_id : string) : M AppState InferResponse :=
  λ s,
  match fall_pipeline_process_frame camera_id None (app_world s) with
  | (Raise e, w) => (Raise e, mkAppState w (fall_events s))
  | (Ok result, w) =>
      if fall_detected result then
        match event_details result with
        | None => (Raise TypeError, mkAppState w (fall_events s))
        | Some details =>
            let event :=
              {| fe_camera_id := camera_id;
                 fe_confidence := ev_confidence details;
                 fe_severity := "High";
                 fe_status := "New";
                 fe_metadata := details |} in
            (Ok (FallReported event), mkAppState w (fall_events s ++ [event]))
        end
      else (Ok (NoFall (detections result)), mkAppState w (fall_events s))
  end.

(** ** video_stream_service.py: [release_all]

    [release_each] is the loop over a list of urls; [release_all] runs it
    over the keys of [active_streams].  Python walks the keys in insertion
    order, which the map does not record, so the facts below are proved for
    every listing of the keys. *)

Fixpoint release_each (urls : list string) : M VideoWorld unit :=
  match urls with
  | [] => M_ret tt
  | camera_url :: rest =>
      let! released_one := VideoStreamService.release_stream camera_url in
      release_each rest
  end.

Definition release_all : M VideoWorld unit :=
  λ v, release_each (elements (dom (active_streams v))) v.

(** The registry is sound: a registered capture was handed out by
    [cv2.VideoCapture], has not been released and serves one url only; no
    capture was released twice; and every registered stream has its lock. *)
Definition registry_inv (streams : gmap string nat) (locks : gmap string Lock)
    (next : nat) (log : list nat) : Prop :=
  (∀ url cap, streams !! url = Some cap → (cap < next)%nat ∧ cap ∉ log)
  ∧ (∀ url1 url2 cap,
       streams !! url1 = Some cap → streams !! url2 = Some cap → url1 = url2)
  ∧ NoDup log
  ∧ (∀ cap, cap ∈ log → (cap < next)%nat)
  ∧ (∀ url, is_Some (streams !! url) → is_Some (locks !! url)).

Definition registry_ok (v : VideoWorld) : Prop :=
  registry_inv (active_streams v) (stream_locks v) (next_capture v) (released v).

Definition fresh_registry (w : World) (opens : string → option bool)
    (tape : nat → option Frame) (render : Frame → list (BBox * bool) → Frame)
  : VideoWorld :=
  {| pipeline_world := w; active_streams := ∅; stream_locks := ∅;
     next_capture := 0; released := []; camera_opens := opens;
     read_tape := tape; read_pos := 0; cv2_render := render |}.

(** A camera whose reads succeed from the third one on. *)
Definition waking_tape : nat → option Frame :=
  λ n, if (n <? 2)%nat then None else Some frame_640x480.

Definition waking_camera : VideoWorld :=
  {| pipeline_world := mock_world;
     active_streams := {[ "0" := 7%nat ]};
     stream_locks := {[ "0" := threading_Lock ]};
     next_capture := 8;
     released := [];
     camera_opens := λ _, Some true;
     read_tape := waking_tape;
     read_pos := 0;
     cv2_render := λ frame _, frame |}.

(** A camera whose first read fails and whose retry succeeds. *)
Definition stuttering_camera : VideoWorld :=
  {| pipeline_world := mock_world;
     active_streams := {[ "0" := 7%nat ]};
     stream_locks := {[ "0" := threading_Lock ]};
     next_capture := 8;
     released := [];
     camera_opens := λ _, Some true;
     read_tape := λ n, if (n =? 0)%nat then None else Some frame_640x480;
     read_pos := 0;
     cv2_render := λ frame _, frame |}.

(** ** The suspect filter *)

Lemma Qc_of_Z_nonzero (z : Z) : z ≠ 0 → Qc_of_Z z ≠ 0%Qc.
Proof. rewrite <- Z2Qc_inj_0. intros Hz Heq. by apply Z2Qc_inj in Heq. Qed.

Lemma py_truediv_ok (a b : Qc) : b ≠ 0%Qc → py_truediv a b = Ok (a / b)%Qc.
Proof. intros Hb. unfold py_truediv. by rewrite bool_decide_eq_false_2. Qed.

Lemma py_truediv_zero (a : Qc) : py_truediv a 0%Qc = Raise ZeroDivisionError.
Proof. unfold py_truediv. by rewrite bool_decide_eq_true_2. Qed.

Lemma box_percentage_eq (b : BBox) :
  box_percentage b = Ok (bb_percentage b 640 480).
Proof.
  destruct b as [[[x1 y1] x2] y2]. unfold box_percentage.
  rewrite py_truediv_ok; [done | by apply Qc_of_Z_nonzero].
Qed.

(** Past the guard, the filter is the cascade of the four conditions. *)
Lemma is_suspect_cascade (b : BBox) :
  bb_height b ≠ 0 →
  _is_suspect b =
    Ok (if rule1 b 640 480 then false
        else if rule2 b then true
        else if rule3 b then true
        else if rule4 b then true
        else false).
Proof.
  destruct b as [[[x1 y1] x2] y2]. intros Hh. cbn in Hh.
  unfold _is_suspect. rewrite bool_decide_eq_false_2 by done.
  rewrite (py_truediv_ok _ (Qc_of_Z (y2 - y1))) by by apply Qc_of_Z_nonzero.
  rewrite (py_truediv_ok _ (Qc_of_Z 2)) by by apply Qc_of_Z_nonzero.
  rewrite box_percentage_eq. cbn [mbind result_mbind result_bind].
  unfold rule1, rule2, rule3, rule4, bb_aspect_ratio, bb_center_y, bb_height,
    bb_width, bb_bottom.
  repeat case_bool_decide; reflexivity.
Qed.

Lemma is_suspect_total (b : BBox) : ∃ v, _is_suspect b = Ok v.
Proof.
  destruct (decide (bb_height b = 0)) as [Hz | Hnz].
  - exists false. destruct b as [[[x1 y1] x2] y2]. cbn in Hz.
    unfold _is_suspect. by rewrite bool_decide_eq_true_2.
  - eexists. by apply is_suspect_cascade.
Qed.

Lemma is_suspect_rules (b : BBox) :
  bb_height b ≠ 0 → _is_suspect b = Ok (rules_is_suspect b 640 480).
Proof.
  intros Hh. rewrite is_suspect_cascade by done.
  unfold rules_is_suspect, first_match. cbn [List.find fst snd].
  by repeat case_match.
Qed.

(** C1. With the frame area fixed at 640*480, for every box with y2 > y1
    [_is_suspect] returns what the four rules give when tried in order, the
    first applicable one deciding; a box that meets the conditions of both
    rule 1 and rule 2 is not a suspect, and so is bbox (50,50,590,430). *)
Theorem is_suspect_first_match (x1 y1 x2 y2 : Z) (Hy : y1 < y2) :
  let b : BBox := (x1, y1, x2, y2) in
  _is_suspect b = Ok (rules_is_suspect b 640 480)
  ∧ (rule1 b 640 480 = true → rule2 b = true → _is_suspect b = Ok false)
  ∧ _is_suspect (50, 50, 590, 430) = Ok false.
Proof.
  intros b. assert (Hh : bb_height b ≠ 0) by (cbn; lia).
  split; [| split].
  - by apply is_suspect_rules.
  - intros H1 _. rewrite is_suspect_cascade by done. by rewrite H1.
  - rewrite is_suspect_cascade by (cbn; lia). by vm_compute.
Qed.

Lemma is_suspect_first_match_witness :
  _is_suspect (50, 50, 590, 430) = Ok (rules_is_suspect (50, 50, 590, 430) 640 480)
  ∧ rule1 (50, 50, 590, 430) 640 480 = true
  ∧ rule2 (50, 50, 590, 430) = false.
Proof.
  split; [| split].
  - apply (is_suspect_first_match 50 50 590 430). lia.
  - by vm_compute.
  - by vm_compute.
Defined.

(** C7. A box of height 0 is not a suspect and no division by zero is
    performed: the division by the height, which would raise, is not
    reached. *)
Theorem is_suspect_zero_height (b : BBox) (Hz : bb_height b = 0) :
  _is_suspect b = Ok false
  ∧ py_truediv (Qc_of_Z (bb_width b)) (Qc_of_Z (bb_height b))
    = Raise ZeroDivisionError.
Proof.
  split.
  - destruct b as [[[x1 y1] x2] y2]. cbn in Hz.
    unfold _is_suspect. by rewrite bool_decide_eq_true_2.
  - rewrite Hz, Z2Qc_inj_0. apply py_truediv_zero.
Qed.

Lemma is_suspect_zero_height_witness :
  _is_suspect (10, 10, 50, 10) = Ok false.
Proof. apply (is_suspect_zero_height (10, 10, 50, 10)). reflexivity. Defined.

(** The wide boxes of the design document's examples are suspects. *)
Example wide_box_is_suspect :
  _is_suspect (100, 200, 400, 260) = Ok true
  ∧ _is_suspect (140, 280, 160, 290) = Ok true.
Proof. split; (rewrite is_suspect_cascade by (cbn; lia)); by vm_compute. Qed.

(** ** Fall confirmation *)

Lemma confirm_fall_falsy (pose_data : option (gmap string pyval)) :
  py_truthy pose_data = false → _confirm_fall pose_data = Ok false.
Proof. intros Hf. unfold _confirm_fall. by rewrite Hf. Qed.

Lemma py_truthy_lookup (d : gmap string pyval) (k : string) :
  is_Some (d !! k) → py_truthy (Some d) = true.
Proof.
  intros [v Hv]. cbn. case_bool_decide as Hs; [| done].
  apply map_size_empty_iff in Hs. subst d. by rewrite lookup_empty in Hv.
Qed.

Lemma confirm_fall_horizontal (d : gmap string pyval) :
  horizontal d = true → _confirm_fall (Some d) = Ok true.
Proof.
  intros Hh. unfold _confirm_fall.
  rewrite (py_truthy_lookup d "orientation").
  - cbn [negb py_get]. unfold horizontal in Hh. by rewrite Hh.
  - unfold horizontal, py_eq_str in Hh. by destruct (d !! "orientation").
Qed.

(** On a truthy pose whose orientation is not 'horizontal', the function
    is the three reads followed by the head/hip comparison. *)
Lemma confirm_fall_reads (d : gmap string pyval) :
  py_truthy (Some d) = true → horizontal d = false →
  _confirm_fall (Some d) =
    (nose_y ← read_y d "nose";
     left_hip_y ← read_y d "left_hip";
     right_hip_y ← read_y d "right_hip";
     head_hip_check nose_y left_hip_y right_hip_y).
Proof.
  intros Ht Hh. unfold _confirm_fall. rewrite Ht.
  unfold horizontal in Hh. cbn [negb py_get py_getitem_opt]. rewrite Hh.
  unfold read_y, head_hip_check.
  cbn [mbind result_mbind result_bind].
  destruct (py_getitem d "nose") as [vn |]; [| done]. cbn.
  destruct (py_index vn 1) as [yn |]; [| done]. cbn.
  destruct (py_getitem d "left_hip") as [vl |]; [| done]. cbn.
  destruct (py_index vl 1) as [yl |]; [| done]. cbn.
  destruct (py_getitem d "right_hip") as [vr |]; [| done]. cbn.
  by destruct (py_index vr 1) as [yr |].
Qed.

Lemma str_index_not_num (s : string) (i : nat) (y : Qc) :
  str_index s i ≠ Ok (VNum y).
Proof. unfold str_index. by destruct (String.get i s). Qed.

Lemma read_y_num (d : gmap string pyval) (k : string) (y : Qc) :
  read_y d k = Ok (VNum y) ↔ keypoint_y d k = Some y.
Proof.
  unfold read_y, keypoint_y, py_getitem.
  destruct (d !! k) as [[| q | s | l] |]; cbn; try (split; congruence).
  - split; [| congruence]. intros Hs. by apply str_index_not_num in Hs.
  - destruct (l !! 1%nat) as [[| q | s | l'] |]; cbn; split; congruence.
Qed.

Lemma head_hip_check_num (yn yl yr : Qc) :
  head_hip_check (VNum yn) (VNum yl) (VNum yr)
  = Ok (bool_decide (Qcabs (yn - (yl + yr) / Qc_of_Z 2) < Qc_of_Z 20)%Qc).
Proof.
  unfold head_hip_check. cbn.
  rewrite py_truediv_ok by by apply Qc_of_Z_nonzero. cbn.
  by case_bool_decide.
Qed.

Lemma head_hip_check_returns (vn vl vr : pyval) :
  returns (head_hip_check vn vl vr) →
  ∃ yn yl yr, vn = VNum yn ∧ vl = VNum yl ∧ vr = VNum yr.
Proof.
  unfold head_hip_check.
  destruct vl, vr; cbn; try done;
    rewrite ?py_truediv_ok by (by apply Qc_of_Z_nonzero);
    destruct vn; cbn; try done.
  intros _. eauto 7.
Qed.

(** C2. [_confirm_fall] gives False on None, True on a pose whose
    orientation is 'horizontal' whatever its keypoints are, and otherwise,
    on a pose with nose, left_hip and right_hip, True exactly when
    |nose.y - (left_hip.y + right_hip.y)/2| < 20. *)
Theorem confirm_fall_contract (d : gmap string pyval) (yn yl yr : Qc) :
  _confirm_fall None = Ok false
  ∧ (horizontal d = true → _confirm_fall (Some d) = Ok true)
  ∧ (horizontal d = false →
     keypoint_y d "nose" = Some yn →
     keypoint_y d "left_hip" = Some yl →
     keypoint_y d "right_hip" = Some yr →
     _confirm_fall (Some d)
     = Ok (bool_decide (Qcabs (yn - (yl + yr) / Qc_of_Z 2) < Qc_of_Z 20)%Qc)).
Proof.
  split; [done | split; [apply confirm_fall_horizontal |]].
  intros Hh Hn Hl Hr.
  rewrite confirm_fall_reads; [| | done].
  - apply read_y_num in Hn, Hl, Hr. rewrite Hn, Hl, Hr. cbn.
    apply head_hip_check_num.
  - apply (py_truthy_lookup d "nose"). unfold keypoint_y in Hn.
    by destruct (d !! "nose").
Qed.

Lemma confirm_fall_contract_witness :
  _confirm_fall (Some PoseService.fallen_pose) = Ok true
  ∧ _confirm_fall (Some PoseService.standing_pose) = Ok false
  ∧ _confirm_fall
      (Some (<["orientation" := VStr "vertical"]> PoseService.fallen_pose))
    = Ok true.
Proof.
  split; [| split].
  - apply (proj1 (proj2 (confirm_fall_contract PoseService.fallen_pose 0 0 0))).
    reflexivity.
  - apply (proj2 (proj2 (confirm_fall_contract PoseService.standing_pose
                           (Qc_of_Z 120) (Qc_of_Z 200) (Qc_of_Z 200))));
      reflexivity.
  - apply (proj2 (proj2 (confirm_fall_contract
             (<["orientation" := VStr "vertical"]> PoseService.fallen_pose)
             (Qc_of_Z 280) (Qc_of_Z 285) (Qc_of_Z 285))));
      reflexivity.
Defined.

(** C10. [_confirm_fall] returns without an exception exactly when the pose
    is None or empty, or its orientation is 'horizontal', or it holds the
    three keypoints nose, left_hip and right_hip, each with a number at
    index 1; on any other pose it raises, and when the nose key is the
    missing one the exception is the failed key lookup. *)
Theorem confirm_fall_exception_free (pose_data : option (gmap string pyval)) :
  (returns (_confirm_fall pose_data) ↔
     py_truthy pose_data = false
     ∨ ∃ d, pose_data = Some d ∧ (horizontal d = true ∨ has_keypoints d))
  ∧ (∀ d, pose_data = Some d → py_truthy pose_data = true →
          horizontal d = false → d !! "nose" = None →
          _confirm_fall pose_data = Raise (KeyError "nose")).
Proof.
  split.
  - destruct (py_truthy pose_data) eqn:Ht.
    2:{ rewrite confirm_fall_falsy by done. cbn. naive_solver. }
    destruct pose_data as [d |]; [| done].
    destruct (horizontal d) eqn:Hh.
    { rewrite confirm_fall_horizontal by done. cbn. naive_solver. }
    rewrite confirm_fall_reads by done.
    split.
    + intros Hret. right. exists d. split; [done | right].
      destruct (read_y d "nose") as [vn |] eqn:Hn; [| done].
      destruct (read_y d "left_hip") as [vl |] eqn:Hl; [| done].
      destruct (read_y d "right_hip") as [vr |] eqn:Hr; [| done].
      cbn in Hret.
      apply head_hip_check_returns in Hret as (yn & yl & yr & -> & -> & ->).
      apply read_y_num in Hn, Hl, Hr. unfold has_keypoints.
      rewrite Hn, Hl, Hr. eauto.
    + intros [? | (d' & [= <-] & [? | ([yn Hn] & [yl Hl] & [yr Hr])])];
        [done | congruence |].
      apply read_y_num in Hn, Hl, Hr. rewrite Hn, Hl, Hr.
      cbn [mbind result_mbind result_bind].
      by rewrite head_hip_check_num.
  - intros d -> Ht Hh Hn. rewrite confirm_fall_reads by done.
    unfold read_y, py_getitem. by rewrite Hn.
Qed.

Lemma confirm_fall_exception_free_witness :
  _confirm_fall
    (Some (list_to_map [("orientation", VStr "vertical");
                        ("confidence", VNum (Q2Qc (9 # 10)))]))
  = Raise (KeyError "nose").
Proof.
  eapply (proj2 (confirm_fall_exception_free _)); reflexivity.
Defined.

(** ** The orchestrator *)

Lemma make_event_ok (p : Person) (pose_data : option (gmap string pyval))
    (e : FallEventDetails) :
  make_event p pose_data = Ok e →
  ∃ pc, py_getitem_opt pose_data "confidence" = Ok (VNum pc)
        ∧ e = {| ev_confidence := ((confidence p + pc) / Qc_of_Z 2)%Qc;
                 ev_bbox := bbox p; ev_pose := pose_data |}.
Proof.
  unfold make_event.
  destruct (py_getitem_opt pose_data "confidence") as [[| pc | s | l] |];
    cbn; try done.
  rewrite py_truediv_ok by by apply Qc_of_Z_nonzero.
  intros [= <-]. eauto.
Qed.

Lemma confirmed_events_cons (p : Person) (d : DetectionInfo)
    (persons : list Person) (ds : list DetectionInfo) :
  confirmed_events (p :: persons) (d :: ds) =
    match confirmed_event p d with
    | Some e => e :: confirmed_events persons ds
    | None => confirmed_events persons ds
    end.
Proof. reflexivity. Qed.

Section pipeline_facts.
Context {W : Type} `{Services W}.

(** One iteration that returns has appended one record and, when the
    person is a confirmed fall, has overwritten the event. *)
Lemma process_person_ok frame results p (w : W) r1 w1 :
  process_person frame results p w = (Ok r1, w1) →
  ∃ d, records p d
       ∧ r1 = append_detection
                (match confirmed_event p d with
                 | Some e => set_event results e
                 | None => results
                 end) d
       ∧ (di_is_suspect d = false → w1 = w).
Proof.
  unfold process_person, M_bind, try_, call, M_ret.
  destruct (_is_suspect (bbox p)) as [[|] |] eqn:Hs; [| | done].
  - destruct (pose_estimate_pose frame (bbox p) w) as [pose w2].
    destruct (_confirm_fall pose) as [[|] |] eqn:Hc; [| | done].
    + destruct (make_event p pose) as [e |] eqn:He; [| done].
      intros [= <- <-]. exists (mkDetectionInfo (bbox p) true pose).
      unfold records, confirmed_event. cbn. rewrite Hc, He. done.
    + intros [= <- <-]. exists (mkDetectionInfo (bbox p) true pose).
      unfold records, confirmed_event. cbn. rewrite Hc. done.
  - intros [= <- <-]. exists (mkDetectionInfo (bbox p) false None).
    unfold records, confirmed_event. cbn. done.
Qed.

Lemma for_persons_ok frame persons :
  ∀ results (w : W) r w',
    for_persons frame persons results w = (Ok r, w') →
    ∃ ds,
      Forall2 records persons ds
      ∧ detections r = detections results ++ ds
      ∧ camera_id r = camera_id results
      ∧ timestamp r = timestamp results
      ∧ event_details r =
          match last (confirmed_events persons ds) with
          | Some e => Some e
          | None => event_details results
          end
      ∧ fall_detected r =
          match last (confirmed_events persons ds) with
          | Some _ => true
          | None => fall_detected results
          end.
Proof.
  induction persons as [| p rest IH]; intros results w r w' Hrun.
  - cbn in Hrun. unfold M_ret in Hrun. injection Hrun as <- <-.
    exists []. rewrite app_nil_r. by repeat split.
  - cbn [for_persons] in Hrun. unfold M_bind in Hrun.
    destruct (process_person frame results p w) as [[r1 |] w1] eqn:Hp;
      [| done].
    apply process_person_ok in Hp as (d & Hrec & -> & _).
    apply IH in Hrun as (ds & Hall & Hdet & Hcam & Hts & Hev & Hfall).
    exists (d :: ds). split; [by constructor |].
    rewrite confirmed_events_cons.
    destruct (confirmed_event p d) as [e |];
      cbn in Hdet, Hcam, Hts, Hev, Hfall;
      (split; [by rewrite Hdet, <- app_assoc |]).
    + rewrite last_cons.
      by destruct (last (confirmed_events rest ds)).
    + done.
Qed.

(** What a returning run of [process_frame] has built. *)
Lemma process_frame_ok cam frame (w : W) r w' :
  process_frame cam frame w = (Ok r, w') →
  Forall2 records (persons_of frame w) (detections r)
  ∧ camera_id r = cam
  ∧ timestamp r = (time_time w).1
  ∧ event_details r
    = last (confirmed_events (persons_of frame w) (detections r))
  ∧ fall_detected r
    = match event_details r with Some _ => true | None => false end.
Proof.
  unfold process_frame, persons_of, M_bind, call.
  destruct (time_time w) as [now w1]. cbn [fst snd].
  destruct (yolo_detect_persons frame w1) as [persons w2]. cbn [fst snd].
  intros Hrun.
  apply for_persons_ok in Hrun as (ds & Hall & Hdet & Hcam & Hts & Hev & Hfall).
  cbn in Hdet, Hcam, Hts, Hev, Hfall. subst ds.
  repeat split; try done.
  - rewrite Hev. by destruct (last _).
  - rewrite Hfall, Hev. by destruct (last _).
Qed.

(** With no suspect among the persons the loop only appends records: it
    returns, leaves the state of the services alone and keeps the event. *)
Lemma for_persons_no_suspect frame persons :
  Forall (λ p, _is_suspect (bbox p) = Ok false) persons →
  ∀ results (w : W),
    for_persons frame persons results w =
      (Ok {| camera_id := camera_id results;
             timestamp := timestamp results;
             detections :=
               detections results
               ++ map (λ p, mkDetectionInfo (bbox p) false None) persons;
             fall_detected := fall_detected results;
             event_details := event_details results |}, w).
Proof.
  induction 1 as [| p rest Hp _ IH]; intros results w.
  - cbn. unfold M_ret. rewrite app_nil_r. by destruct results.
  - cbn [for_persons]. unfold M_bind, process_person, try_, M_bind, M_ret.
    rewrite Hp. rewrite IH. cbn. by rewrite <- app_assoc.
Qed.
End pipeline_facts.

(** ** The orchestrator on the repository's services *)

Lemma fallen_pose_confirms :
  _confirm_fall (Some PoseService.fallen_pose) = Ok true.
Proof. by vm_compute. Qed.

Lemma standing_pose_rejects :
  _confirm_fall (Some PoseService.standing_pose) = Ok false.
Proof. by vm_compute. Qed.

Lemma fallen_pose_event (p : Person) :
  make_event p (Some PoseService.fallen_pose)
  = Ok {| ev_confidence := ((confidence p + Q2Qc (9 # 10)) / Qc_of_Z 2)%Qc;
          ev_bbox := bbox p; ev_pose := Some PoseService.fallen_pose |}.
Proof.
  unfold make_event.
  assert (py_getitem_opt (Some PoseService.fallen_pose) "confidence"
          = Ok (VNum (Q2Qc (9 # 10)))) as -> by reflexivity.
  cbn. by rewrite py_truediv_ok by by apply Qc_of_Z_nonzero.
Qed.

(** With the repository's detector and pose service every iteration, and so
    every frame, returns. *)
Lemma repo_process_person_returns frame results p (w : World) :
  ∃ r w', process_person frame results p w = (Ok r, w').
Proof.
  unfold process_person, M_bind, try_, call, M_ret.
  destruct (is_suspect_total (bbox p)) as [[|] ->]; [| eauto].
  cbn [pose_estimate_pose repo_services]. unfold PoseService.estimate_pose.
  destruct (random_random (count_pose_call w)) as [x w1].
  case_bool_decide.
  - rewrite fallen_pose_confirms, fallen_pose_event. eauto.
  - rewrite standing_pose_rejects. eauto.
Qed.

Lemma repo_for_persons_returns frame persons :
  ∀ results (w : World), ∃ r w', for_persons frame persons results w = (Ok r, w').
Proof.
  induction persons as [| p rest IH]; intros results w.
  - cbn. unfold M_ret. eauto.
  - cbn [for_persons]. unfold M_bind.
    destruct (repo_process_person_returns frame results p w) as (r1 & w1 & ->).
    apply IH.
Qed.

Lemma repo_process_frame_returns cam frame (w : World) :
  ∃ r w', process_frame cam frame w = (Ok r, w').
Proof.
  unfold process_frame, M_bind, call.
  destruct (time_time w) as [now w1].
  destruct (yolo_detect_persons frame w1) as [persons w2].
  apply repo_for_persons_returns.
Qed.

(** C3 (as amended). Every confirmed fall overwrites the event: the event of
    a returned frame is the one of the last suspect, in detector order,
    whose pose confirms a fall, and there is none when no pose does. *)
Theorem event_details_last_fall {W : Type} `{Services W} cam frame (w : W) r w'
    (Hrun : process_frame cam frame w = (Ok r, w')) :
  event_details r
  = last (confirmed_events (persons_of frame w) (detections r)).
Proof. by apply process_frame_ok in Hrun as (_ & _ & _ & Hev & _). Qed.

Lemma event_details_last_fall_witness :
  event_details (returned two_falls_run)
  = last (confirmed_events
            (persons_of (Some frame_640x480) two_falls_world)
            (detections (returned two_falls_run))).
Proof.
  apply (event_details_last_fall "cam" (Some frame_640x480) two_falls_world
           (returned two_falls_run) two_falls_run.2).
  vm_compute. reflexivity.
Defined.

(** C3, the claim as worded, fails: with two confirmed falls in one frame
    the event carries the box of the second one. *)
Lemma first_fall_wins_fails : ¬ first_fall_wins.
Proof.
  intros Hclaim.
  assert (Hrun : process_frame "cam" (Some frame_640x480) two_falls_world
                 = (Ok (returned two_falls_run), two_falls_run.2))
    by (vm_compute; reflexivity).
  apply Hclaim in Hrun. apply (f_equal (fmap ev_bbox)) in Hrun.
  vm_compute in Hrun. discriminate Hrun.
Qed.

(** C4. A frame returned by [process_frame], whatever the detector and the
    pose service give, has [fall_detected] set exactly when it has an event;
    every record with a pose is a suspect; and the confidence of the event
    is the mean of the confidence of the detection it was written for and
    of the confidence of that detection's pose. *)
Theorem process_frame_invariants {W : Type} `{Services W} cam frame (w : W) r w'
    (Hrun : process_frame cam frame w = (Ok r, w')) :
  (fall_detected r = true ↔ event_details r ≠ None)
  ∧ (∀ d, d ∈ detections r → di_pose d ≠ None → di_is_suspect d = true)
  ∧ (fall_detected r = true →
     ∃ e i p d pc,
       event_details r = Some e
       ∧ persons_of frame w !! i = Some p
       ∧ detections r !! i = Some d
       ∧ ev_bbox e = bbox p
       ∧ ev_pose e = di_pose d
       ∧ py_getitem_opt (di_pose d) "confidence" = Ok (VNum pc)
       ∧ ev_confidence e = ((confidence p + pc) / Qc_of_Z 2)%Qc).
Proof.
  apply process_frame_ok in Hrun as (Hall & _ & _ & Hev & Hfall).
  split; [| split].
  - rewrite Hfall. by destruct (event_details r).
  - intros d Hd Hpose.
    apply list_elem_of_lookup in Hd as [i Hi].
    destruct (Forall2_lookup_r _ _ _ _ _ Hall Hi) as (p & _ & _ & _ & Hnone).
    destruct (di_is_suspect d); [done |]. by specialize (Hnone eq_refl).
  - intros Htrue. rewrite Hfall in Htrue.
    destruct (event_details r) as [e |] eqn:He; [| done].
    symmetry in Hev. apply last_Some_elem_of in Hev.
    apply list_elem_of_omap in Hev as ([p d] & Hin & Hce).
    apply list_elem_of_lookup in Hin as [i Hi].
    apply lookup_zip_Some in Hi as [Hp Hd]. cbn in Hce.
    unfold confirmed_event in Hce.
    destruct (di_is_suspect d); [| done].
    destruct (_confirm_fall (di_pose d)) as [[|] |]; try done.
    destruct (make_event p (di_pose d)) as [e' |] eqn:Hmk; [| done].
    injection Hce as ->.
    apply make_event_ok in Hmk as (pc & Hpc & ->).
    eexists _, i, p, d, pc. by repeat split.
Qed.

Lemma process_frame_invariants_witness :
  let r := returned one_fall_run in
  (fall_detected r = true ↔ event_details r ≠ None)
  ∧ (∀ d, d ∈ detections r → di_pose d ≠ None → di_is_suspect d = true)
  ∧ (fall_detected r = true →
     ∃ e i p d pc,
       event_details r = Some e
       ∧ persons_of (Some frame_640x480) one_fall_world !! i = Some p
       ∧ detections r !! i = Some d
       ∧ ev_bbox e = bbox p
       ∧ ev_pose e = di_pose d
       ∧ py_getitem_opt (di_pose d) "confidence" = Ok (VNum pc)
       ∧ ev_confidence e = ((confidence p + pc) / Qc_of_Z 2)%Qc).
Proof.
  apply (process_frame_invariants "cam" (Some frame_640x480) one_fall_world
           (returned one_fall_run) one_fall_run.2).
  vm_compute. reflexivity.
Defined.

(** The scenario of the design document: one detection (140,280,160,290) of
    confidence 0.85 whose pose is horizontal with confidence 0.9. *)
Example end_to_end_scenario :
  fall_detected (returned one_fall_run) = true
  ∧ (ev_confidence <$> event_details (returned one_fall_run))
    = Some ((Q2Qc (85 # 100) + Q2Qc (9 # 10)) / Qc_of_Z 2)%Qc
  ∧ ((Q2Qc (85 # 100) + Q2Qc (9 # 10)) / Qc_of_Z 2)%Qc = Q2Qc (7 # 8).
Proof.
  split; [by vm_compute | split].
  - reflexivity.
  - by apply Qc_is_canon.
Qed.

(** ** The filter and the size of the frame *)

(** C6 (as amended). The filter is a function of the box alone: the
    percentage is taken over the constant area 640*480, and the verdict
    recorded for a detection is that of the rules at 640*480 whatever the
    frame is. *)
Theorem suspect_filter_fixed_frame {W : Type} `{Services W} cam frame (w : W) r w'
    (Hrun : process_frame cam frame w = (Ok r, w'))
    (d : DetectionInfo) (Hd : d ∈ detections r) :
  box_percentage (di_bbox d) = Ok (bb_percentage (di_bbox d) 640 480)
  ∧ _is_suspect (di_bbox d) = Ok (di_is_suspect d)
  ∧ (bb_height (di_bbox d) ≠ 0 →
     di_is_suspect d = rules_is_suspect (di_bbox d) 640 480).
Proof.
  apply process_frame_ok in Hrun as (Hall & _).
  apply list_elem_of_lookup in Hd as [i Hi].
  destruct (Forall2_lookup_r _ _ _ _ _ Hall Hi) as (p & _ & Hb & Hs & _).
  rewrite Hb. split; [apply box_percentage_eq | split; [done |]].
  intros Hh. rewrite is_suspect_rules in Hs by done. by injection Hs.
Qed.

Lemma suspect_filter_fixed_frame_witness :
  let d := mkDetectionInfo (bbox wide_close) false None in
  box_percentage (di_bbox d) = Ok (bb_percentage (di_bbox d) 640 480)
  ∧ _is_suspect (di_bbox d) = Ok (di_is_suspect d)
  ∧ (bb_height (di_bbox d) ≠ 0 →
     di_is_suspect d = rules_is_suspect (di_bbox d) 640 480).
Proof.
  apply (suspect_filter_fixed_frame "cam" (Some frame_1280x960) wide_close_world
           (returned wide_close_run) wide_close_run.2).
  - vm_compute. reflexivity.
  - vm_compute. apply list_elem_of_here.
Defined.

(** C6, the claim as worded, fails: on a 1280x960 frame the box
    (0,100,600,400) covers under 15% of the frame and is wide, so the rules
    taken at the size of the frame make it a suspect, while the code, with
    its constant area, finds it over 50% and records it as not suspect. *)
Lemma filter_follows_frame_size_fails : ¬ filter_follows_frame_size.
Proof.
  intros Hclaim.
  assert (Hrun : process_frame "cam" (Some frame_1280x960) wide_close_world
                 = (Ok (returned wide_close_run), wide_close_run.2))
    by (vm_compute; reflexivity).
  specialize (Hclaim _ _ _ _ _ Hrun (mkDetectionInfo (bbox wide_close) false None)).
  assert (Hin : mkDetectionInfo (bbox wide_close) false None
                ∈ detections (returned wide_close_run))
    by (vm_compute; apply list_elem_of_here).
  assert (Hh : bb_height (bbox wide_close) ≠ 0) by (cbn; lia).
  specialize (Hclaim Hin Hh). cbn [di_bbox di_is_suspect] in Hclaim.
  assert (Hs : rules_is_suspect (bbox wide_close) 1280 960 = true)
    by (by vm_compute).
  cbn [img_w img_h frame_1280x960] in Hclaim. rewrite Hs in Hclaim.
  discriminate Hclaim.
Qed.

(** ** Mock mode *)

Lemma detect_persons_degraded frame (w : World) :
  YoloService.degraded frame w →
  YoloService.detect_persons frame w = YoloService._mock_detection w.
Proof.
  unfold YoloService.degraded, YoloService.detect_persons.
  destruct frame as [f |]; [| done].
  intros [-> | ->]; [done |]. by destruct (model_loaded w).
Qed.

Lemma mock_bbox_not_suspect : _is_suspect YoloService.mock_bbox = Ok false.
Proof. rewrite is_suspect_cascade by (cbn; lia). by vm_compute. Qed.

Lemma mock_detection_cases (w : World) :
  let '(persons, w') := YoloService._mock_detection w in
  Forall (λ p, bbox p = YoloService.mock_bbox ∧ class p = "person") persons
  ∧ (length persons ≤ 1)%nat
  ∧ pose_calls w' = pose_calls w
  ∧ model_loaded w' = model_loaded w
  ∧ dnn_detect w' = dnn_detect w.
Proof.
  unfold YoloService._mock_detection. cbn.
  case_bool_decide; cbn; repeat split; auto.
Qed.

(** C9. In mock mode every detection has the box [100,100,200,300], which
    the filter does not make a suspect; so [process_frame] returns a frame
    with no fall and no event, whose records are all non-suspects without
    a pose, and [estimate_pose] has not been called. *)
Theorem mock_mode_never_falls cam frame (w : World)
    (Hdeg : YoloService.degraded frame w) :
  Forall (λ p, bbox p = YoloService.mock_bbox)
         (YoloService.detect_persons frame w).1
  ∧ _is_suspect YoloService.mock_bbox = Ok false
  ∧ ∃ r w',
      process_frame cam frame w = (Ok r, w')
      ∧ fall_detected r = false
      ∧ event_details r = None
      ∧ Forall (λ d, di_is_suspect d = false ∧ di_pose d = None) (detections r)
      ∧ pose_calls w' = pose_calls w.
Proof.
  rewrite detect_persons_degraded by done.
  pose proof (mock_detection_cases w) as Hmock.
  unfold process_frame, M_bind, call. cbn [time_time yolo_detect_persons repo_services].
  rewrite detect_persons_degraded by done.
  destruct (YoloService._mock_detection w) as [persons w1].
  destruct Hmock as (Hboxes & _ & Hcalls & _). cbn [fst].
  split; [| split; [apply mock_bbox_not_suspect |]].
  - eapply Forall_impl; [exact Hboxes |]. by intros p [? _].
  - rewrite for_persons_no_suspect.
    + eexists _, _. split; [reflexivity |]. cbn.
      repeat split; try done.
      apply Forall_forall. intros d Hd.
      apply list_elem_of_fmap in Hd as (p & -> & _). done.
    + eapply Forall_impl; [exact Hboxes |].
      intros p [-> _]. apply mock_bbox_not_suspect.
Qed.

Lemma mock_mode_never_falls_witness :
  ∃ r w',
    process_frame "cam" None (example_world false None (const_tape (Q2Qc (1 # 2))))
    = (Ok r, w')
    ∧ fall_detected r = false
    ∧ event_details r = None
    ∧ Forall (λ d, di_is_suspect d = false ∧ di_pose d = None) (detections r)
    ∧ pose_calls w' = pose_calls (example_world false None (const_tape (Q2Qc (1 # 2)))).
Proof.
  apply (mock_mode_never_falls "cam" None
           (example_world false None (const_tape (Q2Qc (1 # 2))))).
  exact I.
Defined.

(** ** The degraded detector *)

Lemma mock_confidence_range (r : Qc) :
  (0 ≤ r)%Qc ∧ (r < 1)%Qc →
  (Q2Qc (85 # 100) ≤ Q2Qc (85 # 100) + r * Q2Qc (14 # 100))%Qc
  ∧ (Q2Qc (85 # 100) + r * Q2Qc (14 # 100) < Q2Qc (99 # 100))%Qc.
Proof.
  unfold Qcle, Qclt. destruct r as [q Hq]. cbn.
  rewrite !Qred_correct. intros [H0 H1]. split; lra.
Qed.

(** C5 (as amended). When the frame is None, the model is not loaded or
    inference raises, [detect_persons] returns what [_mock_detection]
    returns, which hangs on two random draws: nothing when the first draw
    is at most 0.3, otherwise one 'person' detection with the box
    [100,100,200,300] and the confidence 0.85 + 0.14 * (second draw), a
    value in [0.85, 0.99). *)
Theorem detect_persons_degraded_mock frame (w : World)
    (Hdeg : YoloService.degraded frame w) (Htape : unit_tape w) :
  let draw1 := random_tape w (random_pos w) in
  let draw2 := random_tape w (S (random_pos w)) in
  let c := (Q2Qc (85 # 100) + draw2 * Q2Qc (14 # 100))%Qc in
  YoloService.detect_persons frame w = YoloService._mock_detection w
  ∧ (YoloService.detect_persons frame w).1
    = (if bool_decide (Q2Qc (3 # 10) < draw1)%Qc
       then [ {| bbox := YoloService.mock_bbox; confidence := c;
                 class := "person" |} ]
       else [])
  ∧ (Q2Qc (85 # 100) ≤ c)%Qc ∧ (c < Q2Qc (99 # 100))%Qc.
Proof.
  intros draw1 draw2 c. rewrite detect_persons_degraded by done.
  split; [done | split].
  - unfold YoloService._mock_detection. cbn. fold draw1.
    by case_bool_decide.
  - apply mock_confidence_range, Htape.
Qed.

Lemma const_tape_unit loaded output :
  unit_tape (example_world loaded output (const_tape (Q2Qc (1 # 2)))).
Proof. intros n. split; by vm_compute. Qed.

Lemma detect_persons_degraded_mock_witness :
  (YoloService.detect_persons None
     (example_world false None (const_tape (Q2Qc (1 # 2))))).1
  = [ {| bbox := YoloService.mock_bbox;
         confidence := (Q2Qc (85 # 100) + Q2Qc (1 # 2) * Q2Qc (14 # 100))%Qc;
         class := "person" |} ].
Proof.
  apply (detect_persons_degraded_mock None
           (example_world false None (const_tape (Q2Qc (1 # 2))))).
  - exact I.
  - intros n. split; by vm_compute.
Defined.

(** C5, the claim as worded, fails twice: two calls in a row on the mock
    path with the same frame give a detection and then nothing; and an
    inference that finds one person at [100,100,200,300] with confidence
    0.92 returns the very value the mock path returns. *)
Lemma degraded_result_not_deterministic :
  ¬ degraded_deterministic ∧ ¬ degraded_distinguishable.
Proof.
  split.
  - intros Hclaim. specialize (Hclaim None mock_world I).
    vm_compute in Hclaim. discriminate Hclaim.
  - intros Hclaim.
    apply (Hclaim frame_640x480 inference_world None
             (example_world false None (const_tape (Q2Qc (1 # 2))))).
    + cbn. intros [? | ?]; discriminate.
    + exact I.
    + change ([upright]
              = [ mkPerson YoloService.mock_bbox
                    (Q2Qc (85 # 100) + Q2Qc (1 # 2) * Q2Qc (14 # 100))%Qc
                    "person" ]).
      unfold upright. do 2 f_equal. by apply Qc_is_canon.
Qed.

(** ** The stream registry *)

Lemma release_stream_absent (camera_url : string) (v : VideoWorld) :
  active_streams v !! camera_url = None →
  VideoStreamService.release_stream camera_url v = (Ok tt, v).
Proof. intros Hno. unfold VideoStreamService.release_stream. by rewrite Hno. Qed.

(** A release of a registered stream: one [release()] on its capture, the
    stream and its lock leave the registries, and nothing is raised. *)
Lemma release_stream_present (camera_url : string) (v : VideoWorld) (cap : nat) :
  active_streams v !! camera_url = Some cap →
  ∃ v1, VideoStreamService.release_stream camera_url v = (Ok tt, v1)
        ∧ active_streams v1 = delete camera_url (active_streams v)
        ∧ stream_locks v1 = delete camera_url (stream_locks v)
        ∧ released v1 = cap :: released v.
Proof.
  intros Hcap. unfold VideoStreamService.release_stream, py_getitem, py_delitem.
  rewrite Hcap. cbn. rewrite Hcap.
  destruct (stream_locks v !! camera_url) as [lock |] eqn:Hlock.
  - eexists. split; [reflexivity |]. done.
  - eexists. split; [reflexivity |]. cbn.
    by rewrite (delete_id (stream_locks v)).
Qed.

(** C8. [release_stream] is idempotent and releases the capture once: after
    a first call, or after the failure path of [read_frame] has dropped the
    stream, a further call changes neither registry, calls no [release()]
    and raises nothing. *)
Theorem release_stream_idempotent (camera_url : string) (v : VideoWorld) :
  (∃ v1,
     VideoStreamService.release_stream camera_url v = (Ok tt, v1)
     ∧ released v1
       = match active_streams v !! camera_url with
         | Some cap => cap :: released v
         | None => released v
         end
     ∧ VideoStreamService.release_stream camera_url v1 = (Ok tt, v1))
  ∧ (∀ with_detections cap,
       read_fails_twice camera_url v cap →
       ∃ v1,
         VideoStreamService.read_frame camera_url with_detections v = (None, v1)
         ∧ released v1
           = cap :: released (VideoStreamService.get_stream camera_url v).2
         ∧ active_streams v1 !! camera_url = None
         ∧ VideoStreamService.release_stream camera_url v1 = (Ok tt, v1)).
Proof.
  split.
  - destruct (active_streams v !! camera_url) as [cap |] eqn:Hcap.
    + destruct (release_stream_present camera_url v cap Hcap)
        as (v1 & Hrel & Hact & _ & Hlog).
      exists v1. repeat split; try done.
      apply release_stream_absent. rewrite Hact. apply lookup_delete_eq.
    + exists v. rewrite release_stream_absent by done. done.
  - intros wd cap. unfold read_fails_twice, VideoStreamService.read_frame.
    destruct (VideoStreamService.get_stream camera_url v) as [stream v1].
    intros (-> & [lock Hlock] & Hr1 & Hr2).
    rewrite Hlock. unfold VideoStreamService.cap_read. rewrite Hr1.
    cbn [read_tape read_pos set_read_pos]. rewrite Hr2.
    cbn [snd].
    destruct (active_streams _ !! camera_url) as [c |] eqn:Hact;
      eexists; (split; [reflexivity |]); cbn.
    + split; [done |]. rewrite lookup_delete_eq. split; [done |].
      apply release_stream_absent. cbn. apply lookup_delete_eq.
    + cbn in Hact. split; [done |]. split; [done |].
      by apply release_stream_absent.
Qed.

Lemma release_stream_idempotent_witness :
  ∃ v1,
    VideoStreamService.read_frame "0" true dead_camera = (None, v1)
    ∧ released v1 = [7%nat]
    ∧ active_streams v1 !! "0" = None
    ∧ VideoStreamService.release_stream "0" v1 = (Ok tt, v1).
Proof.
  apply (proj2 (release_stream_idempotent "0" dead_camera) true 7%nat).
  vm_compute. repeat split. by exists threading_Lock.
Defined.

(** ** The filter on the integer coordinates *)

Lemma Qc_lt_div (q : Qc) (w h : Z) :
  0 < h →
  (q < Qc_of_Z w / Qc_of_Z h)%Qc ↔ Qnum q * h < w * Zpos (Qden q).
Proof.
  intros Hh. destruct h as [| p | p]; try lia.
  unfold Qclt, Qcdiv, Qcmult, Qcinv, Q2Qc, Qc_of_Z. cbn [this].
  rewrite !Qred_correct. destruct q as [[a b] Hq].
  unfold Qlt. cbn. lia.
Qed.

Lemma Qc_div_lt (q : Qc) (w h : Z) :
  0 < h →
  (Qc_of_Z w / Qc_of_Z h < q)%Qc ↔ w * Zpos (Qden q) < Qnum q * h.
Proof.
  intros Hh. destruct h as [| p | p]; try lia.
  unfold Qclt, Qcdiv, Qcmult, Qcinv, Q2Qc, Qc_of_Z. cbn [this].
  rewrite !Qred_correct. destruct q as [[a b] Hq].
  unfold Qlt. cbn. lia.
Qed.

(** Dividing by a negative height turns the comparison round. *)
Lemma Qc_lt_div_neg (q : Qc) (w h : Z) :
  h < 0 →
  (q < Qc_of_Z w / Qc_of_Z h)%Qc ↔ w * Zpos (Qden q) < Qnum q * h.
Proof.
  intros Hh. destruct h as [| p | p]; try lia.
  unfold Qclt, Qcdiv, Qcmult, Qcinv, Q2Qc, Qc_of_Z. cbn [this].
  rewrite !Qred_correct. destruct q as [[a b] Hq].
  unfold Qlt. cbn. lia.
Qed.

(** Numerator and denominator of the constants the filter compares with. *)
Ltac fraction_consts :=
  repeat match goal with
    | |- context [Qnum (this ?q)] =>
        let n := eval vm_compute in (Qnum (this q)) in
        progress change (Qnum (this q)) with n
    | |- context [Qden (this ?q)] =>
        let n := eval vm_compute in (Qden (this q)) in
        progress change (Qden (this q)) with n
    end.

Lemma percentage_over_half (b : BBox) :
  (Qc_of_Z 50 < bb_percentage b 640 480)%Qc
  ↔ 640 * 480 < 2 * (bb_width b * bb_height b).
Proof.
  unfold bb_percentage. generalize (bb_width b * bb_height b). intros a.
  unfold Qclt, Qcdiv, Qcmult, Qcinv, Q2Qc, Qc_of_Z. cbn [this].
  rewrite !Qred_correct.
  change (inject_Z (640 * 480)) with (307200 # 1).
  unfold Qlt. cbn. lia.
Qed.

Lemma rule1_int (b : BBox) : rule1 b 640 480 = int_rule1 b.
Proof.
  unfold rule1, int_rule1. f_equal.
  apply bool_decide_ext, percentage_over_half.
Qed.

Lemma rule2_int (b : BBox) : 0 < bb_height b → rule2 b = int_rule2 b.
Proof.
  intros Hh. unfold rule2, int_rule2, bb_aspect_ratio.
  apply bool_decide_ext. rewrite Qc_lt_div by done. fraction_consts. lia.
Qed.

Lemma rule3_int (b : BBox) : 0 < bb_height b → rule3 b = int_rule3 b.
Proof.
  intros Hh. unfold rule3, int_rule3, bb_aspect_ratio, bb_center_y, bb_bottom.
  destruct b as [[[x1 y1] x2] y2].
  f_equal. f_equal; [| f_equal]; apply bool_decide_ext.
  - rewrite Qc_lt_div by done. fraction_consts. lia.
  - rewrite Qc_lt_div by done. fraction_consts. lia.
  - rewrite Qc_div_lt by done. fraction_consts. lia.
Qed.

(** X1. For a box with y1 < y2 the filter decides as the integer
    conditions do: over half of 640*480 and higher than 250 is not a
    suspect; else 2*width > 3*height is; else y1+y2 > 600 with
    3*height < 5*width < 7*height and y2 > 380 is; else height < 180 with
    y2 > 360 is; nothing else is. *)
Theorem is_suspect_integer_form (b : BBox) (Hh : 0 < bb_height b) :
  _is_suspect b = Ok (int_is_suspect b).
Proof.
  rewrite is_suspect_cascade by lia.
  rewrite rule1_int, rule2_int, rule3_int by done. unfold int_is_suspect.
  by destruct (int_rule1 b), (int_rule2 b), (int_rule3 b), (rule4 b).
Qed.

Lemma is_suspect_integer_form_witness :
  _is_suspect (100, 200, 400, 260) = Ok (int_is_suspect (100, 200, 400, 260)).
Proof. apply is_suspect_integer_form. reflexivity. Defined.

(** X2. A box with y1 < y2 that is at most one and a half times as wide
    as it is high and whose lower edge is at row 360 or above it is never
    a suspect, wherever it is and however large. *)
Theorem upright_box_above_floor_not_suspect (b : BBox)
    (Hh : 0 < bb_height b)
    (Hnarrow : 2 * bb_width b ≤ 3 * bb_height b)
    (Hfloor : bb_bottom b ≤ 360) :
  _is_suspect b = Ok false.
Proof.
  rewrite is_suspect_cascade by lia.
  rewrite rule2_int, rule3_int by done.
  unfold int_rule2, int_rule3, rule4. destruct b as [[[x1 y1] x2] y2].
  cbn in Hfloor.
  rewrite (bool_decide_eq_false_2 (3 * _ < 2 * _)) by lia.
  rewrite (bool_decide_eq_false_2 (380 < y2)) by lia.
  rewrite (bool_decide_eq_false_2 (360 < _)) by (cbn; lia).
  rewrite !andb_false_r. by destruct (rule1 _ _ _).
Qed.

Lemma upright_box_above_floor_not_suspect_witness :
  _is_suspect (300, 100, 380, 340) = Ok false.
Proof. apply upright_box_above_floor_not_suspect; cbn; lia. Defined.

(** X3. A box given upside down (y2 < y1) with x1 <= x2 passes the guard,
    its negative height is under 180 and its negative ratio fits no other
    rule: it is a suspect exactly when y2 > 360. *)
Theorem inverted_box_suspect (b : BBox)
    (Hh : bb_height b < 0) (Hw : 0 ≤ bb_width b) :
  _is_suspect b = Ok (bool_decide (360 < bb_bottom b)).
Proof.
  rewrite is_suspect_cascade by lia. rewrite rule1_int.
  unfold int_rule1, rule2, rule3, rule4, bb_aspect_ratio.
  rewrite (bool_decide_eq_false_2 (250 < _)) by lia.
  rewrite andb_false_r.
  rewrite (bool_decide_eq_false_2 (Q2Qc (3 # 2) < _)%Qc)
    by (rewrite Qc_lt_div_neg by done; fraction_consts; lia).
  rewrite (bool_decide_eq_false_2 (Q2Qc (3 # 5) < _)%Qc)
    by (rewrite Qc_lt_div_neg by done; fraction_consts; lia).
  rewrite andb_false_r. cbn [andb].
  rewrite (bool_decide_eq_true_2 (bb_height b < 180)) by lia. cbn [andb].
  by case_bool_decide.
Qed.

Lemma inverted_box_suspect_witness :
  _is_suspect (100, 400, 200, 370) = Ok true.
Proof. apply (inverted_box_suspect (100, 400, 200, 370)); cbn; lia. Defined.

(** ** Fall confirmation and the keys it reads *)

(** X4. [_confirm_fall] reads the keys orientation, nose, left_hip and
    right_hip only: setting any other key of a non-empty pose, its
    confidence for one, to any value leaves the answer, or the exception,
    as it was. *)
Theorem confirm_fall_ignores_other_keys (d : gmap string pyval)
    (k : string) (v : pyval)
    (Hd : py_truthy (Some d) = true) (Hk : k ∉ confirm_keys) :
  _confirm_fall (Some (<[k := v]> d)) = _confirm_fall (Some d).
Proof.
  assert (Ht : py_truthy (Some (<[k := v]> d)) = true).
  { apply (py_truthy_lookup _ k). rewrite lookup_insert_eq. eauto. }
  unfold confirm_keys in Hk.
  unfold _confirm_fall. rewrite Hd, Ht. cbn [negb py_get py_getitem_opt].
  unfold py_getitem.
  rewrite !lookup_insert_ne by set_solver. reflexivity.
Qed.

Lemma confirm_fall_ignores_other_keys_witness :
  _confirm_fall
    (Some (<["confidence" := VNum 0%Qc]> PoseService.fallen_pose))
  = _confirm_fall (Some PoseService.fallen_pose).
Proof.
  apply confirm_fall_ignores_other_keys.
  - reflexivity.
  - unfold confirm_keys. rewrite !elem_of_cons, elem_of_nil.
    intros [H | [H | [H | [H | H]]]]; try discriminate H; exact H.
Defined.

(** ** The records of a frame *)

(** X5. A returned frame carries the camera id it was called with and the
    clock's time, and its records are the detector's output, one record per
    detection in the detector's order, each with the detection's box and
    with the filter's verdict on that box. *)
Theorem process_frame_records {W : Type} `{Services W} cam frame (w : W) r w'
    (Hrun : process_frame cam frame w = (Ok r, w')) :
  camera_id r = cam
  ∧ timestamp r = (time_time w).1
  ∧ map di_bbox (detections r) = map bbox (persons_of frame w)
  ∧ map (λ d, Ok (di_is_suspect d)) (detections r)
    = map (λ p, _is_suspect (bbox p)) (persons_of frame w).
Proof.
  apply process_frame_ok in Hrun as (Hall & Hcam & Hts & _).
  repeat split; try done.
  - induction Hall as [| p d ps ds (Hb & _) _ IH]; [done |].
    cbn. by rewrite Hb, IH.
  - induction Hall as [| p d ps ds (_ & Hs & _) _ IH]; [done |].
    cbn. by rewrite Hs, IH.
Qed.

Lemma process_frame_records_witness :
  let r := returned two_falls_run in
  camera_id r = "cam"
  ∧ timestamp r = (time_time two_falls_world).1
  ∧ map di_bbox (detections r)
    = map bbox (persons_of (Some frame_640x480) two_falls_world)
  ∧ map (λ d, Ok (di_is_suspect d)) (detections r)
    = map (λ p, _is_suspect (bbox p))
          (persons_of (Some frame_640x480) two_falls_world).
Proof.
  apply (process_frame_records "cam" (Some frame_640x480) two_falls_world
           (returned two_falls_run) two_falls_run.2).
  vm_compute. reflexivity.
Defined.

(** ** The pose step on the repository's services *)

Lemma random_random_pose_calls (w : World) :
  pose_calls (random_random w).2 = pose_calls w.
Proof. reflexivity. Qed.

Lemma detect_persons_pose_calls frame (w : World) :
  pose_calls (YoloService.detect_persons frame w).2 = pose_calls w.
Proof.
  assert (Hmock : pose_calls (YoloService._mock_detection w).2 = pose_calls w).
  { pose proof (mock_detection_cases w) as Hm.
    destruct (YoloService._mock_detection w) as [ps w1]. by apply Hm. }
  unfold YoloService.detect_persons.
  destruct frame as [f |]; [| done].
  destruct (model_loaded w); cbn; [| done].
  by destruct (dnn_detect w f).
Qed.

(** X6. What [estimate_pose] gives is confirmed as a fall exactly when its
    random draw is over 0.8: the fallen pose always confirms, the standing
    one, with head and hips 80 apart, never does.  The call takes one draw. *)
Theorem estimate_pose_confirms_on_draw frame (b : BBox) (w : World) :
  let '(pose_data, w1) := PoseService.estimate_pose frame b w in
  _confirm_fall pose_data
  = Ok (bool_decide (Q2Qc (8 # 10) < random_tape w (random_pos w))%Qc)
  ∧ random_pos w1 = S (random_pos w)
  ∧ pose_calls w1 = S (pose_calls w).
Proof.
  unfold PoseService.estimate_pose. cbn [random_random count_pose_call
    random_tape random_pos pose_calls].
  case_bool_decide; repeat split;
    auto using fallen_pose_confirms, standing_pose_rejects.
Qed.

Lemma repo_process_person_trace frame results p (w : World) r1 w1 :
  process_person frame results p w = (Ok r1, w1) →
  ∃ d, detections r1 = detections results ++ [d]
       ∧ repo_pose d
       ∧ pose_calls w1
         = (pose_calls w + if di_is_suspect d then 1 else 0)%nat.
Proof.
  unfold process_person, M_bind, try_, call, M_ret.
  destruct (_is_suspect (bbox p)) as [[|] |]; [| | done].
  - cbn [pose_estimate_pose repo_services]. unfold PoseService.estimate_pose.
    assert (Hc : pose_calls (random_random (count_pose_call w)).2
                 = S (pose_calls w)) by reflexivity.
    destruct (random_random (count_pose_call w)) as [x w2]. cbn [snd] in Hc.
    case_bool_decide.
    + rewrite fallen_pose_confirms, fallen_pose_event.
      intros [= <- <-]. eexists. split; [reflexivity |].
      unfold repo_pose. cbn. split; [by left | lia].
    + rewrite standing_pose_rejects.
      intros [= <- <-]. eexists. split; [reflexivity |].
      unfold repo_pose. cbn. split; [by right | lia].
  - intros [= <- <-]. eexists. split; [reflexivity |].
    unfold repo_pose. cbn. split; [done | lia].
Qed.

Lemma suspect_count_cons (d : DetectionInfo) (ds : list DetectionInfo) :
  suspect_count (d :: ds)
  = ((if di_is_suspect d then 1 else 0) + suspect_count ds)%nat.
Proof.
  unfold suspect_count. rewrite filter_cons.
  destruct (di_is_suspect d); by case_decide.
Qed.

Lemma repo_for_persons_trace frame persons :
  ∀ results (w : World) r w',
    for_persons frame persons results w = (Ok r, w') →
    ∃ ds, detections r = detections results ++ ds
          ∧ Forall repo_pose ds
          ∧ pose_calls w' = (pose_calls w + suspect_count ds)%nat.
Proof.
  induction persons as [| p rest IH]; intros results w r w' Hrun.
  - cbn in Hrun. unfold M_ret in Hrun. injection Hrun as <- <-.
    exists []. rewrite app_nil_r. repeat split; [done |].
    unfold suspect_count. cbn. lia.
  - cbn [for_persons] in Hrun. unfold M_bind in Hrun.
    destruct (process_person frame results p w) as [[r1 |] w1] eqn:Hp;
      [| done].
    apply repo_process_person_trace in Hp as (d & Hd & Hpose & Hcalls).
    apply IH in Hrun as (ds & Hds & Hposes & Hcalls').
    exists (d :: ds). rewrite Hds, Hd, <- app_assoc.
    split; [done |]. split; [by constructor |].
    rewrite suspect_count_cons. lia.
Qed.

Lemma repo_process_frame_trace cam frame (w : World) r w' :
  process_frame cam frame w = (Ok r, w') →
  Forall repo_pose (detections r)
  ∧ pose_calls w' = (pose_calls w + suspect_count (detections r))%nat.
Proof.
  unfold process_frame, M_bind, call.
  cbn [time_time yolo_detect_persons repo_services].
  pose proof (detect_persons_pose_calls frame w) as Hdet.
  destruct (YoloService.detect_persons frame w) as [persons w1].
  cbn in Hdet. intros Hrun.
  apply repo_for_persons_trace in Hrun as (ds & Hds & Hposes & Hcalls).
  cbn in Hds. subst ds. split; [done | lia].
Qed.

(** X7. With the repository's detector and pose service [process_frame]
    never raises, and it has called [estimate_pose] once for each suspect
    among the records of the frame and for nothing else. *)
Theorem pose_step_once_per_suspect cam frame (w : World) :
  ∃ r w',
    process_frame cam frame w = (Ok r, w')
    ∧ pose_calls w' = (pose_calls w + suspect_count (detections r))%nat.
Proof.
  destruct (repo_process_frame_returns cam frame w) as (r & w' & Hrun).
  exists r, w'. split; [done |].
  by apply repo_process_frame_trace in Hrun as [_ ?].
Qed.

(** X8. With the repository's services a frame holds a fall exactly when
    one of its records has drawn the fallen pose; the event then carries
    that pose. *)
Theorem fall_iff_fallen_pose cam frame (w : World) r w'
    (Hrun : process_frame cam frame w = (Ok r, w')) :
  (fall_detected r = true
   ↔ ∃ d, d ∈ detections r ∧ di_pose d = Some PoseService.fallen_pose)
  ∧ (∀ e, event_details r = Some e → ev_pose e = Some PoseService.fallen_pose).
Proof.
  pose proof (repo_process_frame_trace _ _ _ _ _ Hrun) as [Hposes _].
  apply process_frame_ok in Hrun as (Hall & _ & _ & Hev & Hfall).
  assert (Hce : ∀ p d e, d ∈ detections r → confirmed_event p d = Some e →
                         di_pose d = Some PoseService.fallen_pose
                         ∧ ev_pose e = Some PoseService.fallen_pose).
  { intros p d e Hd Hc. rewrite Forall_forall in Hposes.
    specialize (Hposes d Hd). unfold repo_pose in Hposes.
    unfold confirmed_event in Hc.
    destruct (di_is_suspect d); [| done].
    destruct Hposes as [Hp | Hp]; rewrite Hp in Hc |- *.
    - rewrite fallen_pose_confirms, fallen_pose_event in Hc.
      by injection Hc as <-.
    - by rewrite standing_pose_rejects in Hc. }
  split.
  - rewrite Hfall. split.
    + destruct (event_details r) as [e |] eqn:He; [intros _ | done].
      symmetry in Hev. apply last_Some_elem_of in Hev.
      apply list_elem_of_omap in Hev as ([p d] & Hin & Hc).
      assert (Hd : d ∈ detections r) by by eapply elem_of_zip_r.
      exists d. split; [done |]. by eapply Hce.
    + intros (d & Hd & Hp).
      apply list_elem_of_lookup in Hd as [i Hi].
      destruct (Forall2_lookup_r _ _ _ _ _ Hall Hi) as (p & Hpi & _ & _ & Hno).
      assert (Hc : confirmed_event p d
                   = Some {| ev_confidence :=
                               ((confidence p + Q2Qc (9 # 10)) / Qc_of_Z 2)%Qc;
                             ev_bbox := bbox p;
                             ev_pose := Some PoseService.fallen_pose |}).
      { unfold confirmed_event. destruct (di_is_suspect d).
        - by rewrite Hp, fallen_pose_confirms, fallen_pose_event.
        - rewrite Hno in Hp; done. }
      assert (Hin : {| ev_confidence :=
                         ((confidence p + Q2Qc (9 # 10)) / Qc_of_Z 2)%Qc;
                       ev_bbox := bbox p;
                       ev_pose := Some PoseService.fallen_pose |}
                    ∈ confirmed_events (persons_of frame w) (detections r)).
      { apply list_elem_of_omap. exists (p, d). split; [| done].
        apply list_elem_of_lookup. exists i. by apply lookup_zip_Some. }
      rewrite Hev.
      destruct (last _) eqn:Hl; [done |].
      apply last_None in Hl. rewrite Hl in Hin. by apply elem_of_nil in Hin.
  - intros e He. rewrite Hev in He. apply last_Some_elem_of in He.
    apply list_elem_of_omap in He as ([p d] & Hin & Hc).
    assert (Hd : d ∈ detections r) by by eapply elem_of_zip_r.
    by eapply Hce.
Qed.

Lemma fall_iff_fallen_pose_witness :
  let r := returned one_fall_run in
  (fall_detected r = true
   ↔ ∃ d, d ∈ detections r ∧ di_pose d = Some PoseService.fallen_pose)
  ∧ (∀ e, event_details r = Some e → ev_pose e = Some PoseService.fallen_pose).
Proof.
  apply (fall_iff_fallen_pose "cam" (Some frame_640x480) one_fall_world
           (returned one_fall_run) one_fall_run.2).
  vm_compute. reflexivity.
Defined.

(** ** Poses the orchestrator cannot use *)

(** X9. When the first detection is a suspect and its pose says
    'horizontal' but has no 'confidence', [process_frame] confirms the fall
    and then fails on the lookup of the confidence: it raises
    KeyError('confidence') and returns no frame, whatever follows in the
    detector's output. *)
Theorem confirmed_pose_without_confidence_raises {W : Type} `{Services W}
    cam frame (w w1 w2 : W) p rest d
    (Hdet : yolo_detect_persons frame (time_time w).2 = (p :: rest, w1))
    (Hsus : _is_suspect (bbox p) = Ok true)
    (Hpose : pose_estimate_pose frame (bbox p) w1 = (Some d, w2))
    (Hhor : horizontal d = true)
    (Hconf : d !! "confidence" = None) :
  process_frame cam frame w = (Raise (KeyError "confidence"), w2).
Proof.
  unfold process_frame, M_bind, call.
  destruct (time_time w) as [now w0]. cbn [snd] in Hdet. rewrite Hdet.
  cbn [for_persons]. unfold M_bind, process_person, M_bind, try_, call, M_ret.
  rewrite Hsus, Hpose, (confirm_fall_horizontal d Hhor).
  unfold make_event, py_getitem_opt, py_getitem. by rewrite Hconf.
Qed.

Lemma confirmed_pose_without_confidence_raises_witness :
  @process_frame unit (scripted_services [lying_near; lying_far] (Some bare_pose))
    "cam" None tt
  = (Raise (KeyError "confidence"), tt).
Proof.
  apply (@confirmed_pose_without_confidence_raises unit
           (scripted_services [lying_near; lying_far] (Some bare_pose))
           "cam" None tt tt tt lying_near [lying_far] bare_pose).
  - reflexivity.
  - by vm_compute.
  - reflexivity.
  - reflexivity.
  - reflexivity.
Defined.

Section no_pose.
Context {W : Type} `{Services W}.
Hypothesis Hnone : ∀ frame b (w : W), (pose_estimate_pose frame b w).1 = None.

Lemma no_pose_process_person frame results p (w : W) :
  ∃ d w1,
    process_person frame results p w = (Ok (append_detection results d), w1)
    ∧ di_pose d = None.
Proof.
  unfold process_person, M_bind, try_, call, M_ret.
  destruct (is_suspect_total (bbox p)) as [[|] ->].
  - specialize (Hnone frame (bbox p) w).
    destruct (pose_estimate_pose frame (bbox p) w) as [pose w1].
    cbn in Hnone. subst pose. cbn. eauto.
  - eauto.
Qed.

Lemma no_pose_for_persons frame persons :
  ∀ results (w : W),
    ∃ r w' ds,
      for_persons frame persons results w = (Ok r, w')
      ∧ detections r = detections results ++ ds
      ∧ length ds = length persons
      ∧ Forall (λ d, di_pose d = None) ds
      ∧ fall_detected r = fall_detected results
      ∧ event_details r = event_details results.
Proof.
  induction persons as [| p rest IH]; intros results w.
  - exists results, w, []. cbn. unfold M_ret. by rewrite app_nil_r.
  - cbn [for_persons]. unfold M_bind.
    destruct (no_pose_process_person frame results p w) as (d & w1 & -> & Hd).
    destruct (IH (append_detection results d) w1)
      as (r & w' & ds & -> & Hds & Hlen & Hall & Hfall & Hev).
    exists r, w', (d :: ds). cbn in Hds, Hfall, Hev.
    rewrite Hds, <- app_assoc. cbn. repeat split; auto.
Qed.
End no_pose.

(** X10. When the pose service answers None to every call, [process_frame]
    returns a frame without a fall and without an event, with one record
    per detection and no pose in any of them, whatever the detector
    gives. *)
Theorem no_pose_no_fall {W : Type} `{Services W} cam frame (w : W)
    (Hnone : ∀ f b (w0 : W), (pose_estimate_pose f b w0).1 = None) :
  ∃ r w',
    process_frame cam frame w = (Ok r, w')
    ∧ fall_detected r = false
    ∧ event_details r = None
    ∧ length (detections r) = length (persons_of frame w)
    ∧ Forall (λ d, di_pose d = None) (detections r).
Proof.
  unfold process_frame, persons_of, M_bind, call.
  destruct (time_time w) as [now w0]. cbn [fst snd].
  destruct (yolo_detect_persons frame w0) as [persons w1]. cbn [fst snd].
  edestruct (no_pose_for_persons Hnone frame persons)
    as (r & w' & ds & -> & Hds & Hlen & Hall & Hfall & Hev).
  exists r, w'. cbn in Hds, Hfall, Hev. subst ds. by repeat split.
Qed.

Lemma no_pose_no_fall_witness :
  ∃ r w',
    @process_frame unit (scripted_services [lying_near; lying_far] None)
      "cam" None tt = (Ok r, w')
    ∧ fall_detected r = false
    ∧ event_details r = None
    ∧ length (detections r) = 2%nat
    ∧ Forall (λ d, di_pose d = None) (detections r).
Proof.
  apply (@no_pose_no_fall unit (scripted_services [lying_near; lying_far] None)
           "cam" None tt).
  intros f b w0. reflexivity.
Defined.

(** ** The mock path seen from the callers *)

Lemma mock_process_frame cam frame (w : World) :
  YoloService.degraded frame w →
  process_frame cam frame w
  = (Ok {| camera_id := cam; timestamp := clock w;
           detections := map (λ p, mkDetectionInfo (bbox p) false None)
                             (YoloService._mock_detection w).1;
           fall_detected := false; event_details := None |},
     (YoloService._mock_detection w).2).
Proof.
  intros Hdeg. unfold process_frame, M_bind, call.
  cbn [time_time yolo_detect_persons repo_services].
  rewrite detect_persons_degraded by done.
  pose proof (mock_detection_cases w) as Hmock.
  destruct (YoloService._mock_detection w) as [persons w1].
  destruct Hmock as (Hboxes & _). cbn [fst snd].
  rewrite for_persons_no_suspect; [done |].
  eapply Forall_impl; [exact Hboxes |].
  intros p [-> _]. apply mock_bbox_not_suspect.
Qed.

Lemma mock_records (w : World) :
  let ds := map (λ p, mkDetectionInfo (bbox p) false None)
                (YoloService._mock_detection w).1 in
  Forall (λ d, d = mkDetectionInfo YoloService.mock_bbox false None) ds
  ∧ (length ds ≤ 1)%nat.
Proof.
  pose proof (mock_detection_cases w) as Hmock.
  destruct (YoloService._mock_detection w) as [persons w1].
  destruct Hmock as (Hboxes & Hlen & _). cbn [fst].
  split; [| by rewrite length_map].
  apply Forall_forall. intros d Hd.
  apply list_elem_of_fmap in Hd as (p & -> & Hp).
  rewrite Forall_forall in Hboxes. by destruct (Hboxes p Hp) as [-> _].
Qed.

(** X11. [infer_frame] hands the pipeline the frame None, which sends the
    detector down its mock path; so, whether a model is loaded or not, it
    never reports a fall and never adds a row to the fall events: it
    answers with at most one record, the mock box, not a suspect and
    without a pose. *)
Theorem infer_frame_never_reports (camera_id : string) (s : AppState) :
  ∃ ds w,
    infer_frame camera_id s = (Ok (NoFall ds), mkAppState w (fall_events s))
    ∧ Forall (λ d, d = mkDetectionInfo YoloService.mock_bbox false None) ds
    ∧ (length ds ≤ 1)%nat.
Proof.
  unfold infer_frame, fall_pipeline_process_frame.
  rewrite mock_process_frame by exact I. cbn [fall_detected detections].
  eexists _, _. split; [reflexivity |]. apply mock_records.
Qed.

(** ** The registry of streams *)

Section registry.
Context (streams : gmap string nat) (locks : gmap string Lock)
        (next : nat) (log : list nat).
Hypothesis Hinv : registry_inv streams locks next log.

Ltac registry_split :=
  destruct Hinv as (H1 & H2 & H3 & H4 & H5);
  split; [| split; [| split; [| split]]].

Lemma registry_inv_bump : registry_inv streams locks (S next) log.
Proof.
  registry_split; try done.
  - intros url cap Hc. apply H1 in Hc as [? ?]. split; [lia | done].
  - intros cap Hcap. apply H4 in Hcap. lia.
Qed.

(** A capture that is opened and released at once, as when the test read
    of [get_stream] fails. *)
Lemma registry_inv_release_fresh :
  registry_inv streams locks (S next) (next :: log).
Proof.
  registry_split; try done.
  - intros url cap Hc. apply H1 in Hc as [Hlt Hlog]. split; [lia |].
    intros Hin. apply elem_of_cons in Hin as [-> | Hin]; [lia | done].
  - apply NoDup_cons. split; [| done].
    intros Hin. apply H4 in Hin. lia.
  - intros cap Hcap. apply elem_of_cons in Hcap as [-> | Hcap]; [lia |].
    apply H4 in Hcap. lia.
Qed.

Lemma registry_inv_register (url : string) :
  streams !! url = None →
  registry_inv (<[url := next]> streams) (<[url := threading_Lock]> locks)
               (S next) log.
Proof.
  intros Hnew. registry_split; try done.
  - intros u cap Hc. apply lookup_insert_Some in Hc as [[_ <-] | [_ Hc]].
    + split; [lia |]. intros Hin. apply H4 in Hin. lia.
    + apply H1 in Hc as [? ?]. split; [lia | done].
  - intros url1 url2 cap Hc1 Hc2.
    apply lookup_insert_Some in Hc1 as [[<- <-] | [Hn1 Hc1]];
      apply lookup_insert_Some in Hc2 as [[<- Heq] | [Hn2 Hc2]]; try done.
    + apply H1 in Hc2 as [? _]. lia.
    + apply H1 in Hc1 as [? _]. lia.
    + by eapply H2.
  - intros cap Hcap. apply H4 in Hcap. lia.
  - intros u Hu. destruct (decide (url = u)) as [<- | Hne].
    + rewrite lookup_insert_eq. eauto.
    + rewrite lookup_insert_ne in Hu by done.
      rewrite lookup_insert_ne by done. by apply H5.
Qed.

(** A registered stream is released and leaves [active_streams]. *)
Lemma registry_inv_drop (url : string) (cap : nat) :
  streams !! url = Some cap →
  registry_inv (delete url streams) locks next (cap :: log).
Proof.
  intros Hcap. registry_split.
  - intros u c Hc. apply lookup_delete_Some in Hc as [Hne Hc].
    split; [by apply H1 in Hc as [? _] |].
    intros Hin. apply elem_of_cons in Hin as [-> | Hin].
    + by specialize (H2 _ _ _ Hc Hcap).
    + by apply H1 in Hc as [_ ?].
  - intros url1 url2 c Hc1 Hc2.
    apply lookup_delete_Some in Hc1 as [_ Hc1].
    apply lookup_delete_Some in Hc2 as [_ Hc2]. by eapply H2.
  - apply NoDup_cons. split; [| done]. by apply H1 in Hcap as [_ ?].
  - intros c Hc. apply elem_of_cons in Hc as [-> | Hc]; [| by apply H4].
    by apply H1 in Hcap as [? _].
  - intros u [c Hu]. apply lookup_delete_Some in Hu as [_ Hu]. apply H5. eauto.
Qed.

Lemma registry_inv_drop_lock (url : string) :
  streams !! url = None → registry_inv streams (delete url locks) next log.
Proof.
  intros Hno. registry_split; try done.
  intros u Hu. rewrite lookup_delete_ne; [by apply H5 |].
  intros <-. rewrite Hno in Hu. by destruct Hu.
Qed.
End registry.

Lemma fresh_registry_ok w opens tape render :
  registry_ok (fresh_registry w opens tape render).
Proof.
  unfold registry_ok, registry_inv. cbn.
  split; [| split; [| split; [| split]]].
  - intros url cap Hc. by rewrite lookup_empty in Hc.
  - intros url1 url2 cap Hc. by rewrite lookup_empty in Hc.
  - apply NoDup_nil_2.
  - intros cap Hcap. by apply elem_of_nil in Hcap.
  - intros url [c Hc]. by rewrite lookup_empty in Hc.
Qed.

(** What [get_stream] gives back is what the registry holds afterwards. *)
Lemma get_stream_lookup (camera_url : string) (v : VideoWorld) :
  active_streams (VideoStreamService.get_stream camera_url v).2 !! camera_url
  = (VideoStreamService.get_stream camera_url v).1.
Proof.
  unfold VideoStreamService.get_stream.
  destruct (active_streams v !! camera_url) as [cap |] eqn:Hcap; [done |].
  destruct (camera_opens v camera_url) as [[|] |]; cbn; try done.
  destruct (read_tape v (read_pos v)); cbn; done.
Qed.

(** [get_stream] leaves the camera, the pipeline and the renderer alone. *)
Lemma get_stream_frame (camera_url : string) (v : VideoWorld) :
  let v1 := (VideoStreamService.get_stream camera_url v).2 in
  pipeline_world v1 = pipeline_world v
  ∧ camera_opens v1 = camera_opens v
  ∧ read_tape v1 = read_tape v
  ∧ cv2_render v1 = cv2_render v.
Proof.
  unfold VideoStreamService.get_stream.
  destruct (active_streams v !! camera_url) as [cap |]; [done |].
  destruct (camera_opens v camera_url) as [[|] |]; cbn; try done.
  destruct (read_tape v (read_pos v)); cbn; done.
Qed.

Lemma get_stream_ok (camera_url : string) (v : VideoWorld) :
  registry_ok v → registry_ok (VideoStreamService.get_stream camera_url v).2.
Proof.
  unfold registry_ok. intros Hok. unfold VideoStreamService.get_stream.
  destruct (active_streams v !! camera_url) as [cap |] eqn:Hcap; [done |].
  destruct (camera_opens v camera_url) as [[|] |]; cbn; [| | done].
  - destruct (read_tape v (read_pos v)); cbn.
    + by apply registry_inv_register.
    + by apply registry_inv_release_fresh.
  - by apply registry_inv_bump.
Qed.

(** [release_stream] touches the two registries and the log only. *)
Lemma release_stream_frame (camera_url : string) (v : VideoWorld) :
  let v1 := (VideoStreamService.release_stream camera_url v).2 in
  next_capture v1 = next_capture v
  ∧ pipeline_world v1 = pipeline_world v
  ∧ camera_opens v1 = camera_opens v
  ∧ read_tape v1 = read_tape v
  ∧ read_pos v1 = read_pos v
  ∧ cv2_render v1 = cv2_render v.
Proof.
  unfold VideoStreamService.release_stream, py_getitem, py_delitem.
  destruct (active_streams v !! camera_url) as [cap |] eqn:Hcap; [| done].
  cbn. rewrite Hcap.
  by destruct (stream_locks v !! camera_url).
Qed.

Lemma release_stream_ok (camera_url : string) (v : VideoWorld) :
  registry_ok v →
  registry_ok (VideoStreamService.release_stream camera_url v).2.
Proof.
  intros Hok.
  destruct (active_streams v !! camera_url) as [cap |] eqn:Hcap.
  - pose proof (release_stream_frame camera_url v) as [Hnext _].
    destruct (release_stream_present camera_url v cap Hcap)
      as (v1 & Hrel & Hact & Hlocks & Hlog).
    rewrite Hrel in Hnext |- *. cbn [snd] in Hnext |- *.
    unfold registry_ok. rewrite Hact, Hlocks, Hlog, Hnext.
    apply registry_inv_drop_lock; [| apply lookup_delete_eq].
    by apply registry_inv_drop.
  - by rewrite release_stream_absent.
Qed.

Lemma read_frame_ok (camera_url : string) (with_detections : bool)
    (v : VideoWorld) :
  registry_ok v →
  registry_ok (VideoStreamService.read_frame camera_url with_detections v).2.
Proof.
  intros Hok. apply (get_stream_ok camera_url) in Hok.
  pose proof (get_stream_lookup camera_url v) as Hlook.
  unfold VideoStreamService.read_frame.
  destruct (VideoStreamService.get_stream camera_url v) as [[cap |] v1];
    cbn [fst snd] in *; [| done].
  destruct (stream_locks v1 !! camera_url) as [lock |]; [| done].
  unfold VideoStreamService.cap_read. cbn [read_tape read_pos set_read_pos].
  assert (Hdone : ∀ frame n,
    registry_ok
      (if with_detections
       then match fall_pipeline_process_frame camera_url (Some frame)
                    (pipeline_world (set_read_pos v1 n)) with
            | (Ok fall_result, w) =>
                (Some (cv2_render (set_read_pos v1 n) frame
                         (VideoStreamService.overlays fall_result)),
                 set_pipeline_world (set_read_pos v1 n) w)
            | (Raise _, w) => (None, set_pipeline_world (set_read_pos v1 n) w)
            end
       else (Some frame, set_read_pos v1 n)).2).
  { intros frame n. destruct with_detections; [| done].
    by destruct (fall_pipeline_process_frame _ _ _) as [[r | e] w]. }
  destruct (read_tape v1 (read_pos v1)) as [frame |]; [apply Hdone |].
  destruct (read_tape v1 (S (read_pos v1))) as [frame |]; [apply Hdone |].
  cbn. rewrite Hlook. unfold registry_ok. cbn.
  by apply registry_inv_drop.
Qed.

(** A call of [get_stream] that returns None registers nothing. *)
Lemma get_stream_none (camera_url : string) (v : VideoWorld) :
  (VideoStreamService.get_stream camera_url v).1 = None →
  active_streams (VideoStreamService.get_stream camera_url v).2
  = active_streams v
  ∧ stream_locks (VideoStreamService.get_stream camera_url v).2
    = stream_locks v.
Proof.
  unfold VideoStreamService.get_stream.
  destruct (active_streams v !! camera_url); [done |].
  destruct (camera_opens v camera_url) as [[|] |]; cbn; try done.
  destruct (read_tape v (read_pos v)); cbn; [| done].
  by rewrite lookup_insert_eq.
Qed.

(** X12. On a sound registry [get_stream] either returns a capture, which
    is then registered under the url with a lock, has not been released,
    and is returned again by a second call that changes nothing; or returns
    None and leaves both registries as they were, the url unregistered. *)
Theorem get_stream_contract (camera_url : string) (v : VideoWorld)
    (Hok : registry_ok v) :
  let '(stream, v1) := VideoStreamService.get_stream camera_url v in
  match stream with
  | Some cap =>
      active_streams v1 !! camera_url = Some cap
      ∧ is_Some (stream_locks v1 !! camera_url)
      ∧ (cap ∉ released v1)
      ∧ VideoStreamService.get_stream camera_url v1 = (Some cap, v1)
  | None =>
      active_streams v1 = active_streams v
      ∧ stream_locks v1 = stream_locks v
      ∧ active_streams v1 !! camera_url = None
  end.
Proof.
  pose proof (get_stream_lookup camera_url v) as Hlook.
  pose proof (get_stream_ok camera_url v Hok) as Hok1.
  destruct (VideoStreamService.get_stream camera_url v) as [[cap |] v1] eqn:Hg;
    cbn [fst snd] in Hlook, Hok1.
  - destruct Hok1 as (H1 & _ & _ & _ & H5).
    split; [done |]. split; [apply H5; eauto |].
    split; [by apply H1 in Hlook as [_ ?] |].
    unfold VideoStreamService.get_stream. by rewrite Hlook.
  - destruct (get_stream_none camera_url v) as [Ha Hl]; [by rewrite Hg |].
    rewrite Hg in Ha, Hl. by cbn [snd] in Ha, Hl.
Qed.

Lemma get_stream_contract_witness :
  let v := fresh_registry mock_world (λ _, Some true)
             (λ _, Some frame_640x480) (λ frame _, frame) in
  let '(stream, v1) := VideoStreamService.get_stream "0" v in
  match stream with
  | Some cap =>
      active_streams v1 !! "0" = Some cap
      ∧ is_Some (stream_locks v1 !! "0")
      ∧ (cap ∉ released v1)
      ∧ VideoStreamService.get_stream "0" v1 = (Some cap, v1)
  | None =>
      active_streams v1 = active_streams v
      ∧ stream_locks v1 = stream_locks v
      ∧ active_streams v1 !! "0" = None
  end.
Proof.
  apply (get_stream_contract "0"
           (fresh_registry mock_world (λ _, Some true)
              (λ _, Some frame_640x480) (λ frame _, frame))).
  apply fresh_registry_ok.
Defined.

(** X13. The registry stays sound under [get_stream], [read_frame] and
    [release_stream]: from a sound registry, and the empty one is sound,
    each of them leaves one in which no registered capture has been
    released, no capture has been released twice, no capture serves two
    urls and every registered stream has its lock. *)
Theorem registry_stays_sound (camera_url : string) (with_detections : bool)
    (v : VideoWorld) (Hok : registry_ok v) :
  registry_ok (VideoStreamService.get_stream camera_url v).2
  ∧ registry_ok (VideoStreamService.read_frame camera_url with_detections v).2
  ∧ registry_ok (VideoStreamService.release_stream camera_url v).2.
Proof.
  split; [by apply get_stream_ok |].
  split; [by apply read_frame_ok | by apply release_stream_ok].
Qed.

Lemma registry_stays_sound_witness :
  let v := fresh_registry mock_world (λ _, Some true)
             (λ _, None) (λ frame _, frame) in
  registry_ok (VideoStreamService.get_stream "0" v).2
  ∧ registry_ok (VideoStreamService.read_frame "0" true v).2
  ∧ registry_ok (VideoStreamService.release_stream "0" v).2.
Proof.
  apply (registry_stays_sound "0" true
           (fresh_registry mock_world (λ _, Some true)
              (λ _, None) (λ frame _, frame))).
  apply fresh_registry_ok.
Defined.

(** X14. One failed read is forgiven: when the read of a registered
    stream fails and the retry gives a frame, [read_frame] returns a frame,
    the very one read when detections are off, and neither releases the
    capture nor touches the registries; two reads have been taken. *)
Theorem read_retry_recovers (camera_url : string) (with_detections : bool)
    (v : VideoWorld) (cap : nat) (frame : Frame)
    (Hcap : active_streams v !! camera_url = Some cap)
    (Hlock : is_Some (stream_locks v !! camera_url))
    (Hfirst : read_tape v (read_pos v) = None)
    (Hretry : read_tape v (S (read_pos v)) = Some frame) :
  ∃ out v1,
    VideoStreamService.read_frame camera_url with_detections v = (Some out, v1)
    ∧ (with_detections = false → out = frame)
    ∧ active_streams v1 = active_streams v
    ∧ stream_locks v1 = stream_locks v
    ∧ released v1 = released v
    ∧ read_pos v1 = S (S (read_pos v)).
Proof.
  destruct Hlock as [lock Hlock].
  unfold VideoStreamService.read_frame, VideoStreamService.get_stream.
  rewrite Hcap, Hlock. unfold VideoStreamService.cap_read.
  cbn [read_tape read_pos set_read_pos]. rewrite Hfirst.
  cbn [read_tape read_pos set_read_pos]. rewrite Hretry.
  destruct with_detections.
  - unfold fall_pipeline_process_frame.
    destruct (repo_process_frame_returns camera_url (Some frame)
                (pipeline_world (set_read_pos (set_read_pos v (S (read_pos v)))
                                   (S (S (read_pos v))))))
      as (r & w & ->).
    eexists _, _. split; [reflexivity |]. by repeat split.
  - eexists _, _. split; [reflexivity |]. by repeat split.
Qed.

Lemma read_retry_recovers_witness :
  ∃ out v1,
    VideoStreamService.read_frame "0" false stuttering_camera = (Some out, v1)
    ∧ (false = false → out = frame_640x480)
    ∧ active_streams v1 = active_streams stuttering_camera
    ∧ stream_locks v1 = stream_locks stuttering_camera
    ∧ released v1 = released stuttering_camera
    ∧ read_pos v1 = S (S (read_pos stuttering_camera)).
Proof.
  apply (read_retry_recovers "0" false stuttering_camera 7%nat).
  - reflexivity.
  - by exists threading_Lock.
  - reflexivity.
  - reflexivity.
Defined.

(** X15. With detections off [read_frame] does not run the pipeline: the
    state of the detector and of the pose service is as before, and a frame
    it returns is a frame the camera gave, unannotated. *)
Theorem read_frame_plain (camera_url : string) (v : VideoWorld) :
  let '(out, v1) := VideoStreamService.read_frame camera_url false v in
  pipeline_world v1 = pipeline_world v
  ∧ (∀ frame, out = Some frame → ∃ n, read_tape v n = Some frame).
Proof.
  pose proof (get_stream_frame camera_url v) as (Hw & _ & Htape & _).
  unfold VideoStreamService.read_frame.
  destruct (VideoStreamService.get_stream camera_url v) as [[cap |] v0];
    cbn [snd] in Hw, Htape; [| by split].
  destruct (stream_locks v0 !! camera_url); [| by split].
  unfold VideoStreamService.cap_read.
  cbn [read_tape read_pos set_read_pos].
  destruct (read_tape v0 (read_pos v0)) as [f |] eqn:Hr1.
  { split; [done |]. intros ? [= <-]. rewrite <- Htape. eauto. }
  destruct (read_tape v0 (S (read_pos v0))) as [f |] eqn:Hr2.
  { split; [done |]. intros ? [= <-]. rewrite <- Htape. eauto. }
  cbn. split; [| done]. by destruct (active_streams v0 !! camera_url).
Qed.

(** What the failure path of [read_frame] leaves behind. *)
Lemma read_frame_failure (camera_url : string) (with_detections : bool)
    (v : VideoWorld) (cap : nat) :
  read_fails_twice camera_url v cap →
  let v0 := (VideoStreamService.get_stream camera_url v).2 in
  let v1 := (VideoStreamService.read_frame camera_url with_detections v).2 in
  active_streams v1 = delete camera_url (active_streams v0)
  ∧ stream_locks v1 = stream_locks v0
  ∧ released v1 = cap :: released v0
  ∧ next_capture v1 = next_capture v0
  ∧ read_pos v1 = S (S (read_pos v0))
  ∧ read_tape v1 = read_tape v0
  ∧ camera_opens v1 = camera_opens v0.
Proof.
  unfold read_fails_twice, VideoStreamService.read_frame.
  pose proof (get_stream_lookup camera_url v) as Hlook.
  destruct (VideoStreamService.get_stream camera_url v) as [stream v0].
  cbn [fst snd] in *. intros (-> & [lock Hlock] & Hr1 & Hr2).
  rewrite Hlock. unfold VideoStreamService.cap_read.
  cbn [read_tape read_pos set_read_pos]. rewrite Hr1.
  cbn [read_tape read_pos set_read_pos]. rewrite Hr2.
  cbn. rewrite Hlook. by cbn.
Qed.

(** X16. After [read_frame] has dropped a dead stream its lock is still in
    [stream_locks] though the stream is gone; and when the camera answers
    again, the next [get_stream] opens a new capture, not the released one,
    and registers it. *)
Theorem dropped_stream_reopens (camera_url : string) (with_detections : bool)
    (v : VideoWorld) (cap : nat) (frame : Frame)
    (Hok : registry_ok v)
    (Hfail : read_fails_twice camera_url v cap)
    (Hopen : camera_opens v camera_url = Some true)
    (Hback : read_tape v
               (S (S (read_pos (VideoStreamService.get_stream camera_url v).2)))
             = Some frame) :
  let v1 := (VideoStreamService.read_frame camera_url with_detections v).2 in
  active_streams v1 !! camera_url = None
  ∧ is_Some (stream_locks v1 !! camera_url)
  ∧ ∃ cap' v2,
      VideoStreamService.get_stream camera_url v1 = (Some cap', v2)
      ∧ cap' ≠ cap
      ∧ active_streams v2 !! camera_url = Some cap'
      ∧ cap ∈ released v2
      ∧ cap' ∉ released v2.
Proof.
  pose proof (read_frame_failure camera_url with_detections v cap Hfail)
    as (Hact & Hlocks & Hlog & Hnext & Hpos & Htape & Hopens).
  pose proof (read_frame_ok camera_url with_detections v Hok) as Hok1.
  pose proof (get_stream_frame camera_url v) as (_ & Hopens0 & Htape0 & _).
  assert (Hlock : is_Some
            (stream_locks (VideoStreamService.get_stream camera_url v).2
               !! camera_url)).
  { unfold read_fails_twice in Hfail.
    destruct (VideoStreamService.get_stream camera_url v). by apply Hfail. }
  cbn zeta in *.
  set (v1 := (VideoStreamService.read_frame camera_url with_detections v).2)
    in *.
  assert (Hgone : active_streams v1 !! camera_url = None)
    by (rewrite Hact; apply lookup_delete_eq).
  split; [done |]. split; [by rewrite Hlocks |].
  pose proof (get_stream_ok camera_url v1 Hok1) as Hok2.
  pose proof (get_stream_lookup camera_url v1) as Hlook2.
  assert (Hget : VideoStreamService.get_stream camera_url v1
                 = (Some (next_capture v1),
                    (VideoStreamService.get_stream camera_url v1).2)
                 ∧ released (VideoStreamService.get_stream camera_url v1).2
                   = released v1).
  { unfold VideoStreamService.get_stream. rewrite Hgone.
    rewrite Hopens, Hopens0, Hopen. cbn.
    rewrite Hpos, Htape, Htape0, Hback. cbn.
    by rewrite lookup_insert_eq. }
  destruct Hget as [Hget Hrel2]. rewrite Hget in Hlook2. cbn [fst] in Hlook2.
  exists (next_capture v1), (VideoStreamService.get_stream camera_url v1).2.
  split; [done |].
  destruct Hok1 as (_ & _ & _ & H4 & _).
  destruct Hok2 as (H1' & _).
  assert (Hin : cap ∈ released v1) by (rewrite Hlog; apply list_elem_of_here).
  split; [intros Heq; apply H4 in Hin; lia |].
  split; [done |]. rewrite Hrel2. split; [done |].
  apply H1' in Hlook2 as [_ Hnot]. by rewrite Hrel2 in Hnot.
Qed.

Lemma single_stream_ok (v : VideoWorld) (url : string) (cap : nat) :
  active_streams v = {[ url := cap ]} →
  stream_locks v = {[ url := threading_Lock ]} →
  released v = [] →
  (cap < next_capture v)%nat →
  registry_ok v.
Proof.
  intros Ha Hl Hr Hn. unfold registry_ok. rewrite Ha, Hl, Hr.
  split; [| split; [| split; [| split]]].
  - intros u c Hc. apply lookup_singleton_Some in Hc as [_ <-].
    split; [done | apply not_elem_of_nil].
  - intros u1 u2 c Hc1 Hc2.
    apply lookup_singleton_Some in Hc1 as [<- _].
    by apply lookup_singleton_Some in Hc2 as [<- _].
  - apply NoDup_nil_2.
  - intros c Hc. by apply elem_of_nil in Hc.
  - intros u [c Hc]. apply lookup_singleton_Some in Hc as [<- _].
    rewrite lookup_singleton_eq. eauto.
Qed.

Lemma dropped_stream_reopens_witness :
  let v1 := (VideoStreamService.read_frame "0" true waking_camera).2 in
  active_streams v1 !! "0" = None
  ∧ is_Some (stream_locks v1 !! "0")
  ∧ ∃ cap' v2,
      VideoStreamService.get_stream "0" v1 = (Some cap', v2)
      ∧ cap' ≠ 7%nat
      ∧ active_streams v2 !! "0" = Some cap'
      ∧ 7%nat ∈ released v2
      ∧ (cap' ∉ released v2).
Proof.
  apply (dropped_stream_reopens "0" true waking_camera 7%nat frame_640x480).
  - apply (single_stream_ok waking_camera "0" 7%nat); try reflexivity.
    cbn. lia.
  - vm_compute. repeat split. by exists threading_Lock.
  - reflexivity.
  - reflexivity.
Defined.

(** ** Releasing every stream *)

Lemma release_stream_step (camera_url : string) (v : VideoWorld) :
  ∃ v1,
    VideoStreamService.release_stream camera_url v = (Ok tt, v1)
    ∧ active_streams v1 = delete camera_url (active_streams v)
    ∧ (length (released v1) + size (active_streams v1)
       = length (released v) + size (active_streams v))%nat.
Proof.
  destruct (active_streams v !! camera_url) as [cap |] eqn:Hcap.
  - destruct (release_stream_present camera_url v cap Hcap)
      as (v1 & Hrel & Hact & _ & Hlog).
    exists v1. split; [done |]. split; [done |].
    rewrite Hact, Hlog. cbn [length].
    rewrite <- (insert_delete_id (active_streams v) camera_url cap Hcap) at 2.
    rewrite map_size_insert_None by apply lookup_delete_eq. lia.
  - exists v. rewrite release_stream_absent by done.
    by rewrite delete_id.
Qed.

Lemma release_each_spec (urls : list string) :
  ∀ v, ∃ v1,
    release_each urls v = (Ok tt, v1)
    ∧ (∀ url, active_streams v1 !! url
              = if decide (url ∈ urls) then None else active_streams v !! url)
    ∧ (length (released v1) + size (active_streams v1)
       = length (released v) + size (active_streams v))%nat
    ∧ (registry_ok v → registry_ok v1).
Proof.
  induction urls as [| u rest IH]; intros v.
  - exists v. cbn. unfold M_ret. split; [done |]. split; [| done].
    intros url. case_decide as Hin; [by apply elem_of_nil in Hin | done].
  - cbn [release_each]. unfold M_bind.
    pose proof (release_stream_ok u v) as Hok.
    destruct (release_stream_step u v) as (v0 & Hrel & Hact & Hsize).
    rewrite Hrel in Hok |- *. cbn [snd] in Hok.
    destruct (IH v0) as (v1 & -> & Hact1 & Hsize1 & Hok1).
    exists v1. split; [done |]. split; [| split; [lia | auto]].
    intros url. rewrite Hact1, Hact.
    destruct (decide (url = u)) as [-> | Hne].
    + rewrite lookup_delete_eq.
      destruct (decide (u ∈ u :: rest)) as [_ | Hout].
      * by destruct (decide (u ∈ rest)).
      * destruct Hout. apply list_elem_of_here.
    + rewrite lookup_delete_ne by done.
      destruct (decide (url ∈ rest)) as [Hin | Hout].
      * rewrite decide_True; [done | by apply list_elem_of_further].
      * rewrite decide_False; [done |].
        intros Hin. by apply elem_of_cons in Hin as [? | ?].
Qed.

(** X17. [release_all] raises nothing and leaves [active_streams] empty;
    it has called [release()] as many times as there were registered
    streams, and the registry it leaves is sound if the one it found was,
    so that each of their captures has been released once.  So it is for
    [release_each] over any list that holds every registered url, in
    whatever order. *)
Theorem release_all_empties (v : VideoWorld) :
  (∃ v1,
     release_all v = (Ok tt, v1)
     ∧ active_streams v1 = ∅
     ∧ length (released v1)
       = (length (released v) + size (active_streams v))%nat
     ∧ (registry_ok v → registry_ok v1))
  ∧ (∀ urls,
       (∀ url, is_Some (active_streams v !! url) → url ∈ urls) →
       ∃ v1,
         release_each urls v = (Ok tt, v1)
         ∧ active_streams v1 = ∅
         ∧ length (released v1)
           = (length (released v) + size (active_streams v))%nat
         ∧ (registry_ok v → registry_ok v1)).
Proof.
  assert (Hany : ∀ urls,
            (∀ url, is_Some (active_streams v !! url) → url ∈ urls) →
            ∃ v1,
              release_each urls v = (Ok tt, v1)
              ∧ active_streams v1 = ∅
              ∧ length (released v1)
                = (length (released v) + size (active_streams v))%nat
              ∧ (registry_ok v → registry_ok v1)).
  { intros urls Hcover.
    destruct (release_each_spec urls v) as (v1 & Hrun & Hact & Hsize & Hok).
    assert (Hempty : active_streams v1 = ∅).
    { apply map_eq. intros url. rewrite Hact, lookup_empty.
      case_decide as Hin; [done |].
      destruct (active_streams v !! url) eqn:Hl; [| done].
      exfalso. apply Hin, Hcover. eauto. }
    exists v1. split; [done |]. split; [done |]. split; [| done].
    rewrite Hempty, map_size_empty in Hsize. lia. }
  split; [| exact Hany].
  unfold release_all. apply Hany.
  intros url Hurl. by apply elem_of_elements, elem_of_dom.
Qed.

(** ** The overlays in mock mode *)

(** X18. While no model is loaded, a frame read from a registered camera
    with detections on comes back drawn with at most one box, the mock box
    [100,100,200,300], in green: the stream never shows a fall. *)
Theorem mock_stream_draws_green (camera_url : string) (v : VideoWorld)
    (cap : nat) (frame : Frame)
    (Hcap : active_streams v !! camera_url = Some cap)
    (Hlock : is_Some (stream_locks v !! camera_url))
    (Hread : read_tape v (read_pos v) = Some frame)
    (Hmodel : model_loaded (pipeline_world v) = false) :
  ∃ boxes v1,
    VideoStreamService.read_frame camera_url true v
    = (Some (cv2_render v frame boxes), v1)
    ∧ Forall (λ box, box = (YoloService.mock_bbox, false)) boxes
    ∧ (length boxes ≤ 1)%nat.
Proof.
  destruct Hlock as [lock Hlock].
  unfold VideoStreamService.read_frame, VideoStreamService.get_stream.
  rewrite Hcap, Hlock. unfold VideoStreamService.cap_read.
  cbn [read_tape read_pos set_read_pos]. rewrite Hread.
  unfold fall_pipeline_process_frame.
  rewrite mock_process_frame by (left; exact Hmodel).
  cbn [cv2_render set_read_pos].
  eexists _, _. split; [reflexivity |].
  unfold VideoStreamService.overlays. cbn [detections fall_detected].
  destruct (mock_records (pipeline_world v)) as [Hall Hlen].
  split; [| by rewrite length_map].
  apply Forall_forall. intros box Hbox.
  apply list_elem_of_fmap in Hbox as (d & -> & Hd).
  rewrite Forall_forall in Hall. by rewrite (Hall d Hd).
Qed.

Lemma mock_stream_draws_green_witness :
  ∃ boxes v1,
    VideoStreamService.read_frame "0" true
      (VideoStreamService.get_stream "0"
         (fresh_registry mock_world (λ _, Some true) (λ _, Some frame_640x480)
            (λ frame _, frame))).2
    = (Some frame_640x480, v1)
    ∧ Forall (λ box, box = (YoloService.mock_bbox, false)) boxes
    ∧ (length boxes ≤ 1)%nat.
Proof.
  apply (mock_stream_draws_green "0"
           ((VideoStreamService.get_stream "0"
               (fresh_registry mock_world (λ _, Some true)
                  (λ _, Some frame_640x480) (λ frame _, frame))).2)
           0%nat frame_640x480).
  - reflexivity.
  - by exists threading_Lock.
  - reflexivity.
  - reflexivity.
Defined.
